(** * Workout tracker (scripts/workout.py): storage layer, session grouping
      and analytics, embedded in Rocq.

    Conventions of the embedding.
    - SQLite [REAL] columns and Python [float] values are exact rationals
      ([Q]); rounding of binary floating point is outside the model.
      [INTEGER] columns and Python [int] are [Z].
    - [TEXT] columns and Python [str] are [string]; comparison of text is
      the byte-wise lexicographic order ([String.compare]), which is what
      both Python's [>] on ASCII strings and SQLite's BINARY collation do.
    - A nullable column is an [option].
    - A table is the list of its rows in insertion order.  A database in
      which [ensure_schema] has not yet run is the database with three
      empty tables.
    - A connection carries the committed database and the database as the
      open transaction sees it; [commit] publishes, leaving the [with]
      block through an exception rolls back. *)

From Stdlib Require Import List Bool ZArith QArith Lia Lqa.
From Stdlib Require Import Strings.String Strings.Ascii DecimalString.
From Stdlib Require Import Sorting.Permutation Sorting.Sorted.
Import ListNotations.

Local Open Scope Z_scope.

(* ------------------------------------------------------------------ *)
(** ** Utilities *)

(** [LB_TO_KG = 0.45359237] *)
Definition LB_TO_KG : Q := 45359237 # 100000000.

(** Python's [x > y] on floats. *)
Definition Qgtb (x y : Q) : bool := negb (Qle_bool x y).

(** Python's [x > y] on strings, SQLite's [x > y] on TEXT. *)
Definition str_gtb (x y : string) : bool := String.ltb y x.

(** SQL [COALESCE(a, b)]. *)
Definition COALESCE {A : Type} (a b : option A) : option A :=
  match a with
  | Some _ => a
  | None => b
  end.

(** Python's [a or b] where [a] and [b] are [Optional[str]]: [None] and the
    empty string are both falsy. *)
Definition py_or_str (a b : option string) : option string :=
  match a with
  | Some EmptyString => b
  | Some _ => a
  | None => b
  end.

(** Python's [v or 0.0] where [v] is a float or [None]. *)
Definition py_or_float (v : option Q) : Q :=
  match v with
  | Some q => if Qeq_bool q 0 then 0%Q else q
  | None => 0%Q
  end.

(** Truthiness of an [Optional[str]]. *)
Definition truthy (a : option string) : bool :=
  match a with
  | Some (String _ _) => true
  | _ => false
  end.

(** *** [str.lower] and [str.strip] on ASCII text *)

Definition is_upper (c : ascii) : bool :=
  let n := N_of_ascii c in (65 <=? n)%N && (n <=? 90)%N.

Definition lower_ascii (c : ascii) : ascii :=
  if is_upper c then ascii_of_N (N_of_ascii c + 32) else c.

Fixpoint lower (s : string) : string :=
  match s with
  | EmptyString => EmptyString
  | String c s' => String (lower_ascii c) (lower s')
  end.

(** ASCII characters for which [str.isspace] holds: TAB..CR, FS..US, SPACE. *)
Definition is_space (c : ascii) : bool :=
  let n := N_of_ascii c in
  ((9 <=? n)%N && (n <=? 13)%N) || ((28 <=? n)%N && (n <=? 32)%N).

Fixpoint lstrip (s : string) : string :=
  match s with
  | EmptyString => EmptyString
  | String c s' => if is_space c then lstrip s' else s
  end.

Fixpoint rstrip (s : string) : string :=
  match s with
  | EmptyString => EmptyString
  | String c s' =>
      match rstrip s' with
      | EmptyString => if is_space c then EmptyString else String c EmptyString
      | r => String c r
      end
  end.

Definition strip (s : string) : string := rstrip (lstrip s).

(** *** [date], [datetime] and their [isoformat] *)

Record date := mkdate { year : Z; month : Z; day : Z }.

Record datetime := mkdatetime {
  dt_date : date; hour : Z; minute : Z; second : Z
}.

(** The ranges Python's constructors enforce (the day bound is the
    largest any month allows). *)
Definition date_ok (d : date) : Prop :=
  1 <= year d <= 9999 /\ 1 <= month d <= 12 /\ 1 <= day d <= 31.

Definition datetime_ok (t : datetime) : Prop :=
  date_ok (dt_date t) /\
  0 <= hour t <= 23 /\ 0 <= minute t <= 59 /\ 0 <= second t <= 59.

Definition digit (n : Z) : ascii := ascii_of_N (Z.to_N (48 + n mod 10)).

(** ["%02d" % n] and ["%04d" % n] for a value that fits the width. *)
Definition zfill2 (n : Z) (k : string) : string :=
  String (digit (n / 10)) (String (digit n) k).

Definition zfill4 (n : Z) (k : string) : string :=
  String (digit (n / 1000)) (String (digit (n / 100)) (zfill2 n k)).

(** [date.isoformat()]: YYYY-MM-DD, followed by [k]. *)
Definition date_iso_then (d : date) (k : string) : string :=
  zfill4 (year d) (String "-" (zfill2 (month d) (String "-" (zfill2 (day d) k)))).

Definition date_isoformat (d : date) : string := date_iso_then d EmptyString.

(** [datetime.isoformat(timespec="seconds")]: YYYY-MM-DDTHH:MM:SS. *)
Definition datetime_isoformat (t : datetime) : string :=
  date_iso_then (dt_date t)
    (String "T" (zfill2 (hour t) (String ":" (zfill2 (minute t)
       (String ":" (zfill2 (second t) EmptyString)))))).

(** Chronological order of two [datetime]s. *)
Definition lex (c1 c2 : comparison) : comparison :=
  match c1 with Eq => c2 | _ => c1 end.

Definition date_compare (a b : date) : comparison :=
  lex (year a ?= year b) (lex (month a ?= month b) (day a ?= day b)).

Definition datetime_compare (a b : datetime) : comparison :=
  lex (date_compare (dt_date a) (dt_date b))
    (lex (hour a ?= hour b) (lex (minute a ?= minute b) (second a ?= second b))).

(* ------------------------------------------------------------------ *)
(** ** Domain helpers: the Epley estimate *)

(** [epley_e1rm(weight_kg, reps)] *)
Definition epley_e1rm (weight_kg : Q) (reps : Z) : Q :=
  if reps <=? 1 then weight_kg
  else (weight_kg * (1 + inject_Z reps / 30))%Q.

(** The expression the SQL queries of [summary] and [prs] rank by:
    [weight_kg * (1.0 + reps / 30.0)]. *)
Definition sql_e1rm (weight_kg : Q) (reps : Z) : Q :=
  (weight_kg * (1 + inject_Z reps / 30))%Q.

(* ------------------------------------------------------------------ *)
(** ** Schema and store *)

(** A row of [exercises]; also the [Exercise] dataclass, which has the same
    four fields. *)
Record Exercise := mkExercise {
  id : Z;
  name : string;
  primary_muscle : option string;
  secondary_muscles : option string
}.

(** A row of [workouts]. *)
Record Workout := mkWorkout {
  w_id : Z;
  w_date : string;
  start_time : string;
  end_time : option string;
  w_notes : option string
}.

(** A row of [sets]. *)
Record SetRow := mkSet {
  s_id : Z;
  workout_id : Z;
  exercise_id : Z;
  timestamp : string;
  input_weight : option Q;
  input_unit : option string;
  weight_kg : Q;
  reps : Z;
  rpe : option Q;
  s_notes : option string
}.

Record db := mkdb {
  exercises : list Exercise;
  workouts : list Workout;
  sets : list SetRow
}.

Definition empty_db : db := mkdb [] [] [].

(** [sqlite3.Connection]: what is on disk, and what the open transaction sees. *)
Record conn := mkconn { committed : db; current : db }.

Inductive error :=
| SystemExit (msg : string)
| IntegrityError (msg : string).

Inductive result (A : Type) :=
| Ok (a : A)
| Raise (e : error).
Arguments Ok {A} a.
Arguments Raise {A} e.

(** Code running against a connection, which may raise. *)
Definition M (A : Type) : Type := conn -> result A * conn.

Definition ret {A} (a : A) : M A := fun c => (Ok a, c).

Definition bind {A B} (m : M A) (k : A -> M B) : M B :=
  fun c =>
    match m c with
    | (Ok a, c') => k a c'
    | (Raise e, c') => (Raise e, c')
    end.

Definition raise {A} (e : error) : M A := fun c => (Raise e, c).

Definition query {A} (f : db -> A) : M A := fun c => (Ok (f (current c)), c).

Definition modify (f : db -> db) : M unit :=
  fun c => (Ok tt, mkconn (committed c) (f (current c))).

(** [conn.commit()] *)
Definition commit : M unit :=
  fun c => (Ok tt, mkconn (current c) (current c)).

Declare Scope conn_scope.
Delimit Scope conn_scope with conn.
Notation "x <- m ;; k" := (bind m (fun x => k))
  (at level 61, m at next level, right associativity) : conn_scope.
Notation "m ;;; k" := (bind m (fun _ => k))
  (at level 61, right associativity) : conn_scope.
Local Open Scope conn_scope.

(** [with connect(db_path) as conn: body]: the connection's context manager
    commits when the block is left normally and rolls back when it is left
    through an exception. *)
Definition with_connect {A} (body : M A) (d : db) : result A * db :=
  match body (mkconn d d) with
  | (Ok a, c) => (Ok a, current c)
  | (Raise e, c) => (Raise e, committed c)
  end.

(** [CREATE TABLE IF NOT EXISTS ...]; the tables are there already. *)
Definition ensure_schema : M unit := commit.

(** The rowid SQLite gives to a row inserted without one: one more than the
    largest in the table, 1 in an empty table. *)
Definition next_rowid (ids : list Z) : Z := fold_right Z.max 0 ids + 1.

(** [INSERT INTO exercises (name, primary_muscle, secondary_muscles)];
    [name] is UNIQUE. Returns [lastrowid]. *)
Definition insert_exercise (n : string) (p s : option string) : M Z :=
  fun c =>
    let d := current c in
    if existsb (fun e => String.eqb (name e) n) (exercises d)
    then (Raise (IntegrityError "UNIQUE constraint failed: exercises.name"), c)
    else
      let i := next_rowid (map id (exercises d)) in
      (Ok i, mkconn (committed c)
               (mkdb (exercises d ++ [mkExercise i n p s]) (workouts d) (sets d))).

(** [INSERT INTO workouts (date, start_time, end_time)]. Returns [lastrowid]. *)
Definition insert_workout (d_str st en : string) : M Z :=
  fun c =>
    let d := current c in
    let i := next_rowid (map w_id (workouts d)) in
    (Ok i, mkconn (committed c)
             (mkdb (exercises d)
                   (workouts d ++ [mkWorkout i d_str st (Some en) None])
                   (sets d))).

(** [INSERT INTO sets (...)], with [PRAGMA foreign_keys = ON]: the workout
    and the exercise referred to must exist. *)
Definition insert_set (wid eid : Z) (ts : string) (iw : Q) (iu : string)
    (wkg : Q) (r : Z) (rp : option Q) (nt : option string) : M unit :=
  fun c =>
    let d := current c in
    if existsb (fun w => w_id w =? wid) (workouts d)
       && existsb (fun e => id e =? eid) (exercises d)
    then
      let i := next_rowid (map s_id (sets d)) in
      (Ok tt, mkconn (committed c)
                (mkdb (exercises d) (workouts d)
                      (sets d ++ [mkSet i wid eid ts (Some iw) (Some iu) wkg r rp nt])))
    else (Raise (IntegrityError "FOREIGN KEY constraint failed"), c).

Definition update_exercises (f : Exercise -> Exercise) (eid : Z) : M unit :=
  modify (fun d =>
    mkdb (map (fun e => if id e =? eid then f e else e) (exercises d))
         (workouts d) (sets d)).

Definition update_workouts (f : Workout -> Workout) (wid : Z) : M unit :=
  modify (fun d =>
    mkdb (exercises d)
         (map (fun w => if w_id w =? wid then f w else w) (workouts d))
         (sets d)).

Definition set_end_time (en : option string) (w : Workout) : Workout :=
  mkWorkout (w_id w) (w_date w) (start_time w) en (w_notes w).

(* ------------------------------------------------------------------ *)
(** ** Domain helpers *)

(** [find_exercise_by_name(conn, name)] *)
Definition find_exercise_by_name (n : string) : M (option Exercise) :=
  query (fun d => find (fun e => String.eqb (name e) n) (exercises d)).

(** [add_or_update_exercise(conn, name, primary_muscle, secondary_muscles)] *)
Definition add_or_update_exercise (n : string) (p s : option string)
  : M Exercise :=
  existing <- find_exercise_by_name n ;;
  match existing with
  | Some ex =>
      update_exercises
        (fun e => mkExercise (id e) (name e)
                    (COALESCE p (primary_muscle e))
                    (COALESCE s (secondary_muscles e)))
        (id ex) ;;;
      commit ;;;
      ret (mkExercise (id ex) n
             (py_or_str p (primary_muscle ex))
             (py_or_str s (secondary_muscles ex)))
  | None =>
      i <- insert_exercise n p s ;;
      commit ;;;
      ret (mkExercise i n p s)
  end.

(** [ORDER BY id DESC LIMIT 1] over the rows given. *)
Fixpoint last_by_id (l : list Workout) : option Workout :=
  match l with
  | [] => None
  | w :: l' =>
      match last_by_id l' with
      | Some b => if w_id w <? w_id b then Some b else Some w
      | None => Some w
      end
  end.

(** [get_or_create_workout_for_date(conn, d, set_time)] *)
Definition get_or_create_workout_for_date (d : date) (set_time : datetime)
  : M Z :=
  let d_str := date_isoformat d in
  row <- query (fun st =>
           last_by_id (filter (fun w => String.eqb (w_date w) d_str)
                              (workouts st))) ;;
  let now_iso := datetime_isoformat set_time in
  match row with
  | Some r =>
      let workout_id := w_id r in
      (match end_time r with
       | None =>
           update_workouts (set_end_time (Some now_iso)) workout_id ;;; commit
       | Some e =>
           if str_gtb now_iso e
           then update_workouts (set_end_time (Some now_iso)) workout_id ;;; commit
           else ret tt
       end) ;;;
      ret workout_id
  | None =>
      i <- insert_workout d_str now_iso now_iso ;;
      commit ;;;
      ret i
  end.

(* ------------------------------------------------------------------ *)
(** ** Command implementations *)

(** The arguments of [add-exercise]. *)
Record add_exercise_args := mk_add_exercise_args {
  ae_name : string;
  ae_primary : option string;
  ae_secondary : option string
}.

(** [cmd_add_exercise(args)] *)
Definition cmd_add_exercise (args : add_exercise_args) (d : db)
  : result Exercise * db :=
  with_connect
    (ensure_schema ;;;
     add_or_update_exercise
       (strip (ae_name args))
       (if truthy (ae_primary args)
        then option_map strip (ae_primary args) else None)
       (if truthy (ae_secondary args)
        then option_map strip (ae_secondary args) else None))
    d.

(** The arguments of [log].  [la_date] and [la_ts] are the values of [d] and
    [ts] once [--date] and [--time] have been parsed or defaulted from the
    clock; [la_workout_id] is [int(args.workout_id)] when that option is
    given and non-empty. *)
Record log_args := mk_log_args {
  la_exercise : string;
  la_weight : Q;
  la_reps : Z;
  la_unit : string;
  la_rpe : option Q;
  la_notes : option string;
  la_date : date;
  la_ts : datetime;
  la_workout_id : option Z
}.

Definition exercise_not_found (n : string) : error :=
  SystemExit ("Exercise '" ++ n ++ "' not found. Add it first with add-exercise.").

(** [weight_kg = weight if input_unit == "kg" else weight * LB_TO_KG] *)
Definition to_kg (weight : Q) (input_unit : string) : Q :=
  if String.eqb input_unit "kg" then weight else (weight * LB_TO_KG)%Q.

(** [cmd_log(args)]; the result is the id of the workout the set went to. *)
Definition cmd_log (args : log_args) (d0 : db) : result Z * db :=
  let input_unit := lower (la_unit args) in
  if negb (String.eqb input_unit "kg" || String.eqb input_unit "lb")
  then (Raise (SystemExit "--unit must be 'kg' or 'lb'"), d0)
  else
  let d := la_date args in
  let ts := la_ts args in
  let weight := la_weight args in
  let reps := la_reps args in
  if reps <=? 0
  then (Raise (SystemExit "--reps must be > 0"), d0)
  else
  let weight_kg := to_kg weight input_unit in
  with_connect
    (ensure_schema ;;;
     ex <- find_exercise_by_name (la_exercise args) ;;
     match ex with
     | None => raise (exercise_not_found (la_exercise args))
     | Some ex =>
         workout_id <-
           match la_workout_id args with
           | Some workout_id =>
               let now_iso := datetime_isoformat ts in
               update_workouts
                 (fun w =>
                    set_end_time
                      (match end_time w with
                       | None => Some now_iso
                       | Some e => if str_gtb now_iso e then Some now_iso
                                   else Some e
                       end) w)
                 workout_id ;;;
               commit ;;;
               ret workout_id
           | None => get_or_create_workout_for_date d ts
           end ;;
         insert_set workout_id (id ex) (datetime_isoformat ts)
           weight input_unit weight_kg reps (la_rpe args)
           (if truthy (la_notes args) then la_notes args else None) ;;;
         commit ;;;
         ret workout_id
     end)
    d0.

(** *** [cmd_log] from the command line's values

    [cmd_log] above starts from a date and a timestamp; here they come from
    the [--date] and [--time] strings, as the function receives them. *)

(** The [log] sub-command's namespace: [--weight] and [--reps] arrive
    converted by argparse, [--date] and [--time] as text or [None];
    [lv_workout_id] is [int(args.workout_id)] when that option is given and
    non-empty. *)
Record log_argv := mk_log_argv {
  lv_exercise : string;
  lv_weight : Q;
  lv_reps : Z;
  lv_unit : string;
  lv_rpe : option Q;
  lv_notes : option string;
  lv_date : option string;
  lv_time : option string;
  lv_workout_id : option Z
}.

Section LogArguments.

(** Library functions and the clock: [datetime.strptime(s, "%Y-%m-%d").date()]
    and [datetime.strptime(s, "%H:%M").time()] as (hour, minute), [None]
    standing for [ValueError]; the two readings of [datetime.now()], the
    first for the default date and the second for the default timestamp. *)
Variable strptime_date : string -> option date.
Variable strptime_time : string -> option (Z * Z).
Variable now_date : datetime.
Variable now_ts : datetime.

(** [datetime.combine(d, t)] for a time of day given as (hour, minute). *)
Definition datetime_combine (d : date) (t : Z * Z) : datetime :=
  mkdatetime d (fst t) (snd t) 0.

(** [cmd_log(args)], argument parsing included. *)
Definition cmd_log_argv (args : log_argv) (d0 : db) : result Z * db :=
  let input_unit := lower (lv_unit args) in
  if negb (String.eqb input_unit "kg" || String.eqb input_unit "lb")
  then (Raise (SystemExit "--unit must be 'kg' or 'lb'"), d0)
  else
  match
    (if truthy (lv_date args)
     then match option_map strptime_date (lv_date args) with
          | Some (Some d) => Ok d
          | _ => Raise (SystemExit "--date must be YYYY-MM-DD")
          end
     else Ok (dt_date now_date))
  with
  | Raise e => (Raise e, d0)
  | Ok d =>
  match
    (if truthy (lv_time args)
     then match option_map strptime_time (lv_time args) with
          | Some (Some t) => Ok (datetime_combine d t)
          | _ => Raise (SystemExit "--time must be HH:MM (24h)")
          end
     else Ok now_ts)
  with
  | Raise e => (Raise e, d0)
  | Ok ts =>
  let weight := lv_weight args in
  let reps := lv_reps args in
  if reps <=? 0
  then (Raise (SystemExit "--reps must be > 0"), d0)
  else
  let weight_kg := to_kg weight input_unit in
  with_connect
    (ensure_schema ;;;
     ex <- find_exercise_by_name (lv_exercise args) ;;
     match ex with
     | None => raise (exercise_not_found (lv_exercise args))
     | Some ex =>
         workout_id <-
           match lv_workout_id args with
           | Some workout_id =>
               let now_iso := datetime_isoformat ts in
               update_workouts
                 (fun w =>
                    set_end_time
                      (match end_time w with
                       | None => Some now_iso
                       | Some e => if str_gtb now_iso e then Some now_iso
                                   else Some e
                       end) w)
                 workout_id ;;;
               commit ;;;
               ret workout_id
           | None => get_or_create_workout_for_date d ts
           end ;;
         insert_set workout_id (id ex) (datetime_isoformat ts)
           weight input_unit weight_kg reps (lv_rpe args)
           (if truthy (lv_notes args) then lv_notes args else None) ;;;
         commit ;;;
         ret workout_id
     end)
    d0
  end
  end.

(** The arguments [cmd_log] is left with once date and time are known. *)
Definition parsed (args : log_argv) (d : date) (ts : datetime) : log_args :=
  mk_log_args (lv_exercise args) (lv_weight args) (lv_reps args)
    (lv_unit args) (lv_rpe args) (lv_notes args) d ts (lv_workout_id args).

End LogArguments.

(* ------------------------------------------------------------------ *)
(** ** Analytics *)

(** SQL aggregates over the values of a group; [NULL] on an empty group. *)
Definition Qmaxb (a b : Q) : Q := if Qle_bool a b then b else a.

Definition sql_max (l : list Q) : option Q :=
  match l with
  | [] => None
  | x :: l' => Some (fold_left Qmaxb l' x)
  end.

Definition sql_sum (l : list Q) : option Q :=
  match l with
  | [] => None
  | _ => Some (fold_left Qplus l 0%Q)
  end.

Definition count {A} (l : list A) : Z := Z.of_nat (List.length l).

Definition count_distinct (l : list Z) : Z :=
  Z.of_nat (List.length (nodup Z.eq_dec l)).

(** [ORDER BY]: a stable insertion sort. Rows the key does not tell apart
    stay in scan order, where SQLite promises no order at all. *)
Fixpoint insert_by {A} (le : A -> A -> bool) (x : A) (l : list A) : list A :=
  match l with
  | [] => [x]
  | y :: l' => if le x y then x :: l else y :: insert_by le x l'
  end.

Definition sort_by {A} (le : A -> A -> bool) (l : list A) : list A :=
  fold_right (insert_by le) [] l.

(** [LIMIT n]; a negative [n] is no limit. *)
Definition LIMIT {A} (n : Z) (l : list A) : list A :=
  if n <? 0 then l else firstn (Z.to_nat n) l.

Definition sets_of (eid : Z) (d : db) : list SetRow :=
  filter (fun s => exercise_id s =? eid) (sets d).

(** *** [_print_exercise_summary] *)

Inductive exercise_summary :=
| ExerciseNotFound
| NoSetsLogged
| RecentSets (rows : list (SetRow * Q)) (best_e1rm : Q) (best_from : option SetRow).

(** [ORDER BY s.timestamp DESC, s.id DESC] *)
Definition recent_first (a b : SetRow) : bool :=
  match String.compare (timestamp a) (timestamp b) with
  | Gt => true
  | Lt => false
  | Eq => s_id b <=? s_id a
  end.

(** The loop that keeps the best estimate seen so far, from [0.0]. *)
Definition best_recent (rows : list SetRow) : Q * option SetRow :=
  fold_left
    (fun acc r =>
       let e1 := epley_e1rm (weight_kg r) (reps r) in
       if Qgtb e1 (fst acc) then (e1, Some r) else acc)
    rows (0%Q, None).

Definition print_exercise_summary (n : string) (limit : Z)
  : M exercise_summary :=
  ex <- find_exercise_by_name n ;;
  match ex with
  | None => ret ExerciseNotFound
  | Some ex =>
      rows <- query (fun d => LIMIT limit (sort_by recent_first (sets_of (id ex) d))) ;;
      match rows with
      | [] => ret NoSetsLogged
      | _ =>
          let b := best_recent rows in
          ret (RecentSets
                 (map (fun r => (r, epley_e1rm (weight_kg r) (reps r))) rows)
                 (fst b) (snd b))
      end
  end.

(** *** [cmd_summary] *)

(** A row of the global per-exercise query. *)
Record summary_row := mk_summary_row {
  sr_name : string;
  sr_sets : Z;
  sr_sessions : Z;
  sr_volume_kg : option Q;
  sr_best_e1rm : option Q
}.

(** [FROM exercises e LEFT JOIN sets s ON s.exercise_id = e.id GROUP BY e.id
    ORDER BY e.name ASC]: one group per exercise ([id] is the primary key). *)
Definition summary_query (d : db) : list summary_row :=
  sort_by (fun a b => String.leb (sr_name a) (sr_name b))
    (map (fun e =>
            let ss := sets_of (id e) d in
            mk_summary_row (name e)
              (count ss)
              (count_distinct (map workout_id ss))
              (sql_sum (map (fun s => (weight_kg s * inject_Z (reps s))%Q) ss))
              (sql_max (map (fun s => sql_e1rm (weight_kg s) (reps s)) ss)))
         (exercises d)).

(** What a line of the global summary shows, before number formatting. *)
Record summary_line := mk_summary_line {
  sl_name : string;
  sl_sets : Z;
  sl_sessions : Z;
  sl_volume : Q;
  sl_best_e1rm : Q
}.

Definition summary_line_of (r : summary_row) : summary_line :=
  mk_summary_line (sr_name r) (sr_sets r) (sr_sessions r)
    (py_or_float (sr_volume_kg r)) (py_or_float (sr_best_e1rm r)).

Record summary_args := mk_summary_args {
  sa_exercise : option string;
  sa_limit : Z
}.

Inductive summary_output :=
| OneExercise (e : exercise_summary)
| AllExercises (lines : list summary_line).

(** [cmd_summary(args)] *)
Definition cmd_summary (args : summary_args) (d : db)
  : result summary_output * db :=
  with_connect
    (ensure_schema ;;;
     match sa_exercise args with
     | Some (String c n) =>
         e <- print_exercise_summary (String c n) (sa_limit args) ;;
         ret (OneExercise e)
     | _ =>
         rows <- query summary_query ;;
         ret (AllExercises (map summary_line_of rows))
     end)
    d.

(** *** [cmd_prs] *)

(** The subquery [SELECT exercise_id, MAX(...) FROM sets GROUP BY exercise_id]. *)
Definition max_e1rm_by_exercise (d : db) : list (Z * Q) :=
  flat_map
    (fun eid =>
       match sql_max (map (fun s => sql_e1rm (weight_kg s) (reps s))
                          (sets_of eid d)) with
       | Some m => [(eid, m)]
       | None => []
       end)
    (nodup Z.eq_dec (map exercise_id (sets d))).

(** [FROM sets s JOIN exercises e ON e.id = s.exercise_id JOIN (...) m ON
    m.exercise_id = s.exercise_id AND m.max_e1rm = (...) ORDER BY e.name ASC] *)
Definition prs_join (d : db) : list (Exercise * SetRow) :=
  sort_by (fun a b => String.leb (name (fst a)) (name (fst b)))
    (flat_map
       (fun s =>
          flat_map
            (fun e =>
               flat_map
                 (fun m =>
                    if (id e =? exercise_id s)
                       && (fst m =? exercise_id s)
                       && Qeq_bool (snd m) (sql_e1rm (weight_kg s) (reps s))
                    then [(e, s)] else [])
                 (max_e1rm_by_exercise d))
            (exercises d))
       (sets d)).

(** A line of [prs], before number formatting. *)
Record pr_row := mk_pr_row {
  pr_name : string;
  pr_timestamp : string;
  pr_input_weight : option Q;
  pr_input_unit : option string;
  pr_reps : Z;
  pr_e1rm : Q
}.

Definition pr_row_of (p : Exercise * SetRow) : pr_row :=
  let (e, s) := p in
  mk_pr_row (name e) (timestamp s) (input_weight s) (input_unit s) (reps s)
    (sql_e1rm (weight_kg s) (reps s)).

(** [cmd_prs(args)] *)
Definition cmd_prs (d : db) : result (list pr_row) * db :=
  with_connect
    (ensure_schema ;;;
     rows <- query prs_join ;;
     ret (map pr_row_of rows))
    d.

(* ------------------------------------------------------------------ *)
(** ** Workout listing *)

(** [str(n)] for an [int]. *)
Definition str_of_Z (n : Z) : string := NilZero.string_of_int (Z.to_int n).

Section Listing.

(** Library parsers, taken as given: [datetime.fromisoformat] ([None] when
    it raises), the whole seconds of [end - start], and
    [datetime.strptime(s, "%Y-%m-%d").date()] ([None] on [ValueError]). *)
Variable fromisoformat : string -> option datetime.
Variable seconds_between : datetime -> datetime -> Z.
Variable strptime_date : string -> option date.

(** [human_duration(start_iso, end_iso)] *)
Definition human_duration (start_iso : string) (end_iso : option string)
  : string :=
  match fromisoformat start_iso with
  | None => "-"%string
  | Some start_dt =>
      match end_iso with
      | None | Some EmptyString => "-"%string
      | Some e =>
          match fromisoformat e with
          | None => "-"%string
          | Some end_dt =>
              let minutes := seconds_between start_dt end_dt / 60 in
              let hours := minutes / 60 in
              let mins := minutes mod 60 in
              if hours =? 0
              then (str_of_Z mins ++ "m")%string
              else (str_of_Z hours ++ "h" ++ zfill2 mins "m")%string
          end
      end
  end.

(** [_date_range(where_from, where_to)] *)
Definition date_range (where_from where_to : option string)
  : result (option string * option string) :=
  match
    (if truthy where_from
     then match option_map strptime_date where_from with
          | Some (Some d) => Ok (Some (date_isoformat d))
          | _ => Raise (SystemExit "--from must be YYYY-MM-DD")
          end
     else Ok None)
  with
  | Raise e => Raise e
  | Ok from_str =>
      if truthy where_to
      then match option_map strptime_date where_to with
           | Some (Some d) => Ok (from_str, Some (date_isoformat d))
           | _ => Raise (SystemExit "--to must be YYYY-MM-DD")
           end
      else Ok (from_str, None)
  end.

(** The [WHERE] clause built from the two bounds. *)
Definition in_range (from_str to_str : option string) (w : Workout) : bool :=
  (if truthy from_str
   then match from_str with
        | Some f => String.leb f (w_date w)
        | None => true
        end
   else true)
  &&
  (if truthy to_str
   then match to_str with
        | Some t => String.leb (w_date w) t
        | None => true
        end
   else true).

(** [ORDER BY date DESC, id DESC] *)
Definition newest_first (a b : Workout) : bool :=
  match String.compare (w_date a) (w_date b) with
  | Gt => true
  | Lt => false
  | Eq => w_id b <=? w_id a
  end.

(** [ORDER BY s.timestamp ASC, s.id ASC] *)
Definition oldest_first (a b : SetRow) : bool :=
  match String.compare (timestamp a) (timestamp b) with
  | Lt => true
  | Gt => false
  | Eq => s_id a <=? s_id b
  end.

(** A line of the per-set details of a workout. *)
Record detail_row := mk_detail_row {
  dr_id : Z;
  dr_timestamp : string;
  dr_exercise : string;
  dr_input_weight : option Q;
  dr_input_unit : option string;
  dr_reps : Z;
  dr_rpe : option Q;
  dr_notes : option string
}.

Definition sets_in (wid : Z) (d : db) : list SetRow :=
  filter (fun s => workout_id s =? wid) (sets d).

(** [FROM sets s JOIN exercises e ON e.id = s.exercise_id
    WHERE s.workout_id = ? ORDER BY s.timestamp ASC, s.id ASC] *)
Definition workout_details (wid : Z) (d : db) : list detail_row :=
  flat_map
    (fun s =>
       flat_map
         (fun e =>
            if id e =? exercise_id s
            then [mk_detail_row (s_id s) (timestamp s) (name e)
                    (input_weight s) (input_unit s) (reps s) (rpe s)
                    (s_notes s)]
            else [])
         (exercises d))
    (sort_by oldest_first (sets_in wid d)).

(** What is printed for one workout, before number formatting. *)
Record workout_entry := mk_workout_entry {
  we_id : Z;
  we_date : string;
  we_duration : string;
  we_sets : Z;
  we_exercises : Z;
  we_volume : Q;
  we_details : list detail_row
}.

Definition workout_entry_of (details : bool) (d : db) (row : Workout)
  : workout_entry :=
  let ss := sets_in (w_id row) d in
  mk_workout_entry (w_id row) (w_date row)
    (human_duration (start_time row) (end_time row))
    (count ss)
    (count_distinct (map exercise_id ss))
    (py_or_float (sql_sum (map (fun s => (weight_kg s * inject_Z (reps s))%Q) ss)))
    (if details then workout_details (w_id row) d else []).

Record list_workouts_args := mk_list_workouts_args {
  lw_from : option string;
  lw_to : option string;
  lw_details : bool
}.

Inductive list_workouts_output :=
| NoWorkoutsFound
| Workouts (entries : list workout_entry).

(** [cmd_list_workouts(args)] *)
Definition cmd_list_workouts (args : list_workouts_args) (d0 : db)
  : result list_workouts_output * db :=
  match date_range (lw_from args) (lw_to args) with
  | Raise e => (Raise e, d0)
  | Ok (from_str, to_str) =>
      with_connect
        (ensure_schema ;;;
         rows <- query (fun d =>
                   sort_by newest_first
                     (filter (in_range from_str to_str) (workouts d))) ;;
         match rows with
         | [] => ret NoWorkoutsFound
         | _ =>
             entries <- query (fun d =>
                          map (workout_entry_of (lw_details args) d) rows) ;;
             ret (Workouts entries)
         end)
        d0
  end.

End Listing.

(* ------------------------------------------------------------------ *)
(** ** Vocabulary of the properties *)

(** The commands that touch the store, and the stores they can build
    starting from an empty database. *)
Inductive command :=
| AddExercise (a : add_exercise_args)
| Log (a : log_args)
| Summary (a : summary_args)
| Prs.

Definition exec (c : command) (d : db) : db :=
  match c with
  | AddExercise a => snd (cmd_add_exercise a d)
  | Log a => snd (cmd_log a d)
  | Summary a => snd (cmd_summary a d)
  | Prs => snd (cmd_prs d)
  end.

Definition run (cs : list command) (d : db) : db :=
  fold_left (fun d c => exec c d) cs d.

Inductive reachable : db -> Prop :=
| reachable_empty : reachable empty_db
| reachable_exec d c : reachable d -> reachable (exec c d).

Definition exercise_named (n : string) (d : db) : option Exercise :=
  find (fun e => String.eqb (name e) n) (exercises d).

Definition workout_with_id (i : Z) (d : db) : option Workout :=
  find (fun w => w_id w =? i) (workouts d).

(** The workouts whose [date] column is the given calendar date. *)
Definition workouts_on (dt : date) (d : db) : list Workout :=
  filter (fun w => String.eqb (w_date w) (date_isoformat dt)) (workouts d).

(** Order of stored timestamps, as the code compares them. *)
Definition ts_le (a b : string) : Prop := String.leb a b = true.

(** A set row that keeps an entered value and unit, and whose canonical
    weight is that value for kg and the value times 0.45359237 for lb. *)
Definition canonical (s : SetRow) : Prop :=
  exists w,
    input_weight s = Some w /\
    ((input_unit s = Some "kg"%string /\ weight_kg s = w) \/
     (input_unit s = Some "lb"%string /\
      weight_kg s = (w * (45359237 # 100000000))%Q)).

(** [cmd_log] gets past its argument checks and finds the exercise. *)
Definition log_accepted (a : log_args) (d : db) : Prop :=
  (lower (la_unit a) = "kg"%string \/ lower (la_unit a) = "lb"%string) /\
  0 < la_reps a /\
  exercise_named (la_exercise a) d <> None.

(** Keys and references of a store built by the commands. *)
Record db_ok (d : db) : Prop := mk_db_ok {
  ok_exercise_ids : NoDup (map id (exercises d));
  ok_exercise_names : NoDup (map name (exercises d));
  ok_workout_ids : NoDup (map w_id (workouts d));
  ok_set_exercise :
    forall s, In s (sets d) -> In (exercise_id s) (map id (exercises d));
  ok_set_workout :
    forall s, In s (sets d) -> In (workout_id s) (map w_id (workouts d))
}.

(** [UPDATE workouts SET end_time = ... WHERE id = i], row by row. *)
Definition touch (i : Z) (f : Workout -> Workout) (ws : list Workout)
  : list Workout :=
  map (fun w => if w_id w =? i then f w else w) ws.

(** The later of the stored end and [now]; [now] when none is stored. *)
Definition later_end (now : string) (w : Workout) : option string :=
  match end_time w with
  | None => Some now
  | Some e => if str_gtb now e then Some now else Some e
  end.

(** The row [cmd_log] adds to [sets]. *)
Definition logged_set (a : log_args) (d : db) (wid : Z) (ex : Exercise)
  : SetRow :=
  mkSet (next_rowid (map s_id (sets d))) wid (id ex)
    (datetime_isoformat (la_ts a))
    (Some (la_weight a)) (Some (lower (la_unit a)))
    (to_kg (la_weight a) (lower (la_unit a)))
    (la_reps a) (la_rpe a)
    (if truthy (la_notes a) then la_notes a else None).

(** The [workouts] table after a successful [cmd_log], and the workout the
    set went to. *)
Definition logged_workouts (a : log_args) (d : db) : Z * list Workout :=
  let now := datetime_isoformat (la_ts a) in
  match la_workout_id a with
  | Some i => (i, touch i (fun w => set_end_time (later_end now w) w) (workouts d))
  | None =>
      match last_by_id (workouts_on (la_date a) d) with
      | Some r =>
          (w_id r,
           if match end_time r with None => true | Some e => str_gtb now e end
           then touch (w_id r) (set_end_time (Some now)) (workouts d)
           else workouts d)
      | None =>
          let i := next_rowid (map w_id (workouts d)) in
          (i, workouts d ++ [mkWorkout i (date_isoformat (la_date a)) now (Some now) None])
      end
  end.

(** What a command does to the store. *)
Inductive effect (d : db) : command -> db -> Prop :=
| effect_none c : effect d c d
| effect_update a exs :
    map id exs = map id (exercises d) ->
    map name exs = map name (exercises d) ->
    effect d (AddExercise a) (mkdb exs (workouts d) (sets d))
| effect_insert a n p s :
    exercise_named n d = None ->
    effect d (AddExercise a)
      (mkdb (exercises d ++ [mkExercise (next_rowid (map id (exercises d))) n p s])
         (workouts d) (sets d))
| effect_log a ex :
    log_accepted a d ->
    exercise_named (la_exercise a) d = Some ex ->
    In (fst (logged_workouts a d)) (map w_id (snd (logged_workouts a d))) ->
    effect d (Log a)
      (mkdb (exercises d) (snd (logged_workouts a d))
         (sets d ++ [logged_set a d (fst (logged_workouts a d)) ex])).

Definition e1rm_of (s : SetRow) : Q := epley_e1rm (weight_kg s) (reps s).

Definition rank_of (s : SetRow) : Q := sql_e1rm (weight_kg s) (reps s).

(** Whether a set's ranking value is the largest among the sets of its
    exercise. *)
Definition is_top (d : db) (s : SetRow) : bool :=
  match sql_max (map rank_of (sets_of (exercise_id s) d)) with
  | Some m => Qeq_bool m (rank_of s)
  | None => false
  end.

(** The sets of an exercise whose ranking value is the largest of the group. *)
Definition top_sets (eid : Z) (d : db) : list SetRow :=
  filter (is_top d) (sets_of eid d).

(** The row an [UPDATE ... COALESCE] leaves in place of [e]. *)
Definition merged (p s : option string) (e : Exercise) : Exercise :=
  mkExercise (id e) (name e)
    (COALESCE p (primary_muscle e)) (COALESCE s (secondary_muscles e)).

(** The lines [prs] prints for an exercise name. *)
Definition prs_for (n : string) (rows : list pr_row) : list pr_row :=
  filter (fun r => String.eqb (pr_name r) n) rows.

(* ------------------------------------------------------------------ *)
(** ** The Epley estimate *)

(** C6: [epley_e1rm] is a total function of its two arguments; it returns
    the weight when [reps <= 1] and [weight * (1 + reps/30)] when
    [reps > 1]. *)
Theorem epley_e1rm_cases (w : Q) (r : Z) :
  (r <= 1 -> epley_e1rm w r = w) /\
  (1 < r -> epley_e1rm w r = (w * (1 + inject_Z r / 30))%Q).
Proof.
  unfold epley_e1rm; split; intros H.
  - apply Z.leb_le in H. now rewrite H.
  - apply Z.leb_gt in H. now rewrite H.
Qed.

Lemma epley_e1rm_cases_witness :
  epley_e1rm 100 1 = 100%Q /\
  epley_e1rm 100 5 = (100 * (1 + inject_Z 5 / 30))%Q.
Proof.
  split.
  - apply (proj1 (epley_e1rm_cases 100 1)). lia.
  - apply (proj2 (epley_e1rm_cases 100 5)). lia.
Defined.

Lemma epley_factor_pos (r : Z) : 1 < r -> (0 < inject_Z r / 30)%Q.
Proof.
  intros H. apply Qlt_shift_div_l; [reflexivity|].
  rewrite Qmult_0_l. change 0%Q with (inject_Z 0).
  rewrite <- Zlt_Qlt. lia.
Qed.

Lemma epley_factor_mono (r r' : Z) :
  r <= r' -> (inject_Z r / 30 <= inject_Z r' / 30)%Q.
Proof.
  intros H. unfold Qdiv. apply Qmult_le_compat_r; [|discriminate].
  now rewrite <- Zle_Qle.
Qed.

(** C7, as the code has it: the estimate never decreases when the weight
    grows, for every rep count; it never decreases when the rep count grows
    provided the weight is not negative. *)
Theorem epley_e1rm_monotone (w w' : Q) (r r' : Z) :
  ((w <= w')%Q -> (epley_e1rm w r <= epley_e1rm w' r)%Q) /\
  ((0 <= w)%Q -> r <= r' -> (epley_e1rm w r <= epley_e1rm w r')%Q).
Proof.
  unfold epley_e1rm. split.
  - intros Hw. destruct (r <=? 1) eqn:E; [exact Hw|].
    apply Z.leb_gt, epley_factor_pos in E. nra.
  - intros Hw Hr.
    destruct (r <=? 1) eqn:E; destruct (r' <=? 1) eqn:E'.
    + apply Qle_refl.
    + apply Z.leb_gt, epley_factor_pos in E'. nra.
    + apply Z.leb_gt in E. apply Z.leb_le in E'. lia.
    + pose proof (epley_factor_mono r r' Hr). nra.
Qed.

Lemma epley_e1rm_monotone_witness :
  (epley_e1rm 80 10 <= epley_e1rm 100 10)%Q /\
  (epley_e1rm 100 3 <= epley_e1rm 100 10)%Q.
Proof.
  split.
  - apply (proj1 (epley_e1rm_monotone 80 100 10 10)). discriminate.
  - apply (proj2 (epley_e1rm_monotone 100 100 3 10)); [discriminate | lia].
Defined.

(** C7 as stated fails: with a negative weight (the log command accepts
    one) more reps give a smaller estimate. *)
Lemma epley_e1rm_decreases_for_negative_weight :
  2 <= 3 /\ ~ (epley_e1rm (-30) 2 <= epley_e1rm (-30) 3)%Q.
Proof.
  split; [lia|]. vm_compute. intros H. apply H. reflexivity.
Qed.

(* ------------------------------------------------------------------ *)
(** ** The commands in closed form *)

Lemma db_eta d : mkdb (exercises d) (workouts d) (sets d) = d.
Proof. now destruct d. Qed.

Lemma touch_ids i f ws :
  (forall w, w_id (f w) = w_id w) -> map w_id (touch i f ws) = map w_id ws.
Proof.
  intros Hf. unfold touch. rewrite map_map. apply map_ext.
  intros w. destruct (w_id w =? i); auto.
Qed.

Lemma touch_dates i f ws :
  (forall w, w_date (f w) = w_date w) ->
  map w_date (touch i f ws) = map w_date ws.
Proof.
  intros Hf. unfold touch. rewrite map_map. apply map_ext.
  intros w. destruct (w_id w =? i); auto.
Qed.

Lemma touch_absent i f ws :
  existsb (fun w => w_id w =? i) ws = false -> touch i f ws = ws.
Proof.
  unfold touch. induction ws as [|w ws IH]; simpl; [reflexivity|].
  intros H. apply orb_false_iff in H as [H1 H2].
  rewrite H1, IH; auto.
Qed.

Lemma existsb_touch i j f ws :
  (forall w, w_id (f w) = w_id w) ->
  existsb (fun w => w_id w =? j) (touch i f ws)
  = existsb (fun w => w_id w =? j) ws.
Proof.
  intros Hf. unfold touch. induction ws as [|w ws IH]; simpl; [reflexivity|].
  rewrite IH. destruct (w_id w =? i); [rewrite Hf|]; reflexivity.
Qed.

Lemma existsb_id_In i ws :
  existsb (fun w => w_id w =? i) ws = true <-> In i (map w_id ws).
Proof.
  rewrite existsb_exists, in_map_iff. split.
  - intros (w & Hw & E). apply Z.eqb_eq in E. eauto.
  - intros (w & E & Hw). exists w. split; [exact Hw|now apply Z.eqb_eq].
Qed.

Lemma last_by_id_In l r : last_by_id l = Some r -> In r l.
Proof.
  revert r. induction l as [|w l IH]; simpl; [discriminate|].
  intros r. destruct (last_by_id l) as [b|].
  - destruct (w_id w <? w_id b); intros [= <-]; auto.
  - intros [= <-]; auto.
Qed.

Lemma last_by_id_None l : last_by_id l = None <-> l = [].
Proof.
  destruct l as [|w l]; simpl; [tauto|].
  split; [|discriminate].
  destruct (last_by_id l) as [b|]; [destruct (w_id w <? w_id b)|]; discriminate.
Qed.

Lemma exercise_named_In n d ex :
  exercise_named n d = Some ex -> In ex (exercises d) /\ name ex = n.
Proof.
  unfold exercise_named. intros H. apply find_some in H as [H1 H2].
  apply String.eqb_eq in H2. auto.
Qed.

Lemma exercise_named_id n d ex :
  exercise_named n d = Some ex ->
  existsb (fun e => id e =? id ex) (exercises d) = true.
Proof.
  intros H. apply exercise_named_In in H as [H _].
  apply existsb_exists. exists ex. split; [exact H|apply Z.eqb_refl].
Qed.

Lemma exercise_named_None n d :
  exercise_named n d = None ->
  existsb (fun e => String.eqb (name e) n) (exercises d) = false.
Proof.
  unfold exercise_named. intros H.
  destruct (existsb _ _) eqn:E; [|reflexivity].
  apply existsb_exists in E as (e & He & Hn).
  now rewrite (find_none _ _ H e He) in Hn.
Qed.

(** [cmd_log], case by case: the two argument checks, the lookup of the
    exercise, the foreign key of an explicit workout id, and the write. *)
Lemma cmd_log_eq a d :
  cmd_log a d =
  if negb (String.eqb (lower (la_unit a)) "kg"
           || String.eqb (lower (la_unit a)) "lb")
  then (Raise (SystemExit "--unit must be 'kg' or 'lb'"), d)
  else if la_reps a <=? 0
  then (Raise (SystemExit "--reps must be > 0"), d)
  else
    match exercise_named (la_exercise a) d with
    | None => (Raise (exercise_not_found (la_exercise a)), d)
    | Some ex =>
        if match la_workout_id a with
           | Some i => existsb (fun w => w_id w =? i) (workouts d)
           | None => true
           end
        then (Ok (fst (logged_workouts a d)),
              mkdb (exercises d) (snd (logged_workouts a d))
                (sets d ++ [logged_set a d (fst (logged_workouts a d)) ex]))
        else (Raise (IntegrityError "FOREIGN KEY constraint failed"), d)
    end.
Proof.
  unfold cmd_log.
  destruct (negb _); [reflexivity|].
  destruct (la_reps a <=? 0); [reflexivity|].
  unfold with_connect, bind, ensure_schema, commit, find_exercise_by_name, query.
  cbn [current committed].
  fold (exercise_named (la_exercise a) d).
  destruct (exercise_named (la_exercise a) d) as [ex|] eqn:Hex; [|reflexivity].
  pose proof (exercise_named_id _ _ _ Hex) as Hfk.
  unfold logged_workouts, logged_set.
  destruct (la_workout_id a) as [i|].
  - unfold ret, insert_set, update_workouts, modify.
    cbn [current committed exercises workouts sets fst snd].
    change (map _ (workouts d)) with
      (touch i (fun w => set_end_time (later_end (datetime_isoformat (la_ts a)) w) w)
         (workouts d)).
    rewrite existsb_touch by reflexivity. rewrite Hfk, andb_true_r.
    destruct (existsb (fun w => w_id w =? i) (workouts d)) eqn:Hw; [reflexivity|].
    cbn [committed]. rewrite touch_absent by exact Hw. now rewrite db_eta.
  - unfold get_or_create_workout_for_date, bind, query, ret, insert_set,
      insert_workout, commit, update_workouts, modify.
    cbn [current committed exercises workouts sets fst snd].
    fold (workouts_on (la_date a) d).
    destruct (last_by_id (workouts_on (la_date a) d)) as [r|] eqn:Hl.
    + assert (Hin : existsb (fun w => w_id w =? w_id r) (workouts d) = true).
      { apply last_by_id_In in Hl. unfold workouts_on in Hl.
        apply filter_In in Hl as [Hl _]. apply existsb_exists.
        exists r. split; [exact Hl|apply Z.eqb_refl]. }
      destruct (end_time r) as [e|];
        [destruct (str_gtb (datetime_isoformat (la_ts a)) e)|];
        cbn [current committed exercises workouts sets fst snd];
        try change (map _ (workouts d)) with
          (touch (w_id r) (set_end_time (Some (datetime_isoformat (la_ts a))))
             (workouts d));
        rewrite ?existsb_touch by reflexivity; rewrite Hin, Hfk; reflexivity.
    + cbn [current committed exercises workouts sets fst snd].
      rewrite existsb_app. cbn [existsb w_id].
      rewrite Z.eqb_refl, orb_true_r, Hfk. reflexivity.
Qed.

(** [add_or_update_exercise] on any connection: an update in place of the
    row found by name, or an insert; committed either way. *)
Lemma add_or_update_exercise_eq n p s c :
  add_or_update_exercise n p s c =
  let d := current c in
  match exercise_named n d with
  | Some ex =>
      let d' :=
        mkdb (map (fun e =>
                     if id e =? id ex
                     then mkExercise (id e) (name e)
                            (COALESCE p (primary_muscle e))
                            (COALESCE s (secondary_muscles e))
                     else e) (exercises d))
             (workouts d) (sets d) in
      (Ok (mkExercise (id ex) n (py_or_str p (primary_muscle ex))
             (py_or_str s (secondary_muscles ex))),
       mkconn d' d')
  | None =>
      let i := next_rowid (map id (exercises d)) in
      let d' := mkdb (exercises d ++ [mkExercise i n p s]) (workouts d) (sets d) in
      (Ok (mkExercise i n p s), mkconn d' d')
  end.
Proof.
  unfold add_or_update_exercise, bind, find_exercise_by_name, query.
  fold (exercise_named n (current c)).
  destruct (exercise_named n (current c)) as [ex|] eqn:Hex.
  - reflexivity.
  - unfold insert_exercise. rewrite (exercise_named_None _ _ Hex). reflexivity.
Qed.

Lemma cmd_summary_readonly a d : snd (cmd_summary a d) = d.
Proof.
  unfold cmd_summary, with_connect, bind, ensure_schema, commit, query.
  cbn [current committed].
  destruct (sa_exercise a) as [[|ch n]|]; try reflexivity.
  unfold print_exercise_summary, bind, find_exercise_by_name, query, ret.
  cbn [current committed].
  destruct (find _ _); [|reflexivity].
  destruct (LIMIT _ _); reflexivity.
Qed.

Lemma cmd_prs_eq d : cmd_prs d = (Ok (map pr_row_of (prs_join d)), d).
Proof. reflexivity. Qed.

Lemma cmd_summary_global_eq l d :
  cmd_summary (mk_summary_args None l) d
  = (Ok (AllExercises (map summary_line_of (summary_query d))), d).
Proof. reflexivity. Qed.

Lemma cmd_add_exercise_eq a d :
  cmd_add_exercise a d =
  let n := strip (ae_name a) in
  let p := if truthy (ae_primary a) then option_map strip (ae_primary a) else None in
  let s := if truthy (ae_secondary a) then option_map strip (ae_secondary a) else None in
  match add_or_update_exercise n p s (mkconn d d) with
  | (r, c) => (r, current c)
  end.
Proof.
  unfold cmd_add_exercise, with_connect, bind, ensure_schema, commit.
  cbn [current committed]. cbv zeta.
  rewrite add_or_update_exercise_eq. cbn [current]. cbv zeta.
  destruct (exercise_named _ d); reflexivity.
Qed.

Lemma cmd_add_exercise_frame a d :
  workouts (snd (cmd_add_exercise a d)) = workouts d /\
  sets (snd (cmd_add_exercise a d)) = sets d.
Proof.
  rewrite cmd_add_exercise_eq. cbv zeta.
  rewrite add_or_update_exercise_eq. cbn [current]. cbv zeta.
  destruct (exercise_named _ d); split; reflexivity.
Qed.

(** What a command does to the [sets] table: nothing, or one row appended
    by an accepted [log]. *)
Lemma exec_sets c d :
  sets (exec c d) = sets d \/
  exists a ex,
    c = Log a /\ log_accepted a d /\
    exercise_named (la_exercise a) d = Some ex /\
    exec c d = mkdb (exercises d) (snd (logged_workouts a d))
                 (sets d ++ [logged_set a d (fst (logged_workouts a d)) ex]).
Proof.
  destruct c as [a|a|a|]; cbn [exec].
  - left. apply cmd_add_exercise_frame.
  - rewrite cmd_log_eq.
    destruct (String.eqb (lower (la_unit a)) "kg"
              || String.eqb (lower (la_unit a)) "lb") eqn:Hu;
      cbn [negb]; [|now left].
    destruct (la_reps a <=? 0) eqn:Hr; [now left|].
    destruct (exercise_named (la_exercise a) d) as [ex|] eqn:Hex; [|now left].
    destruct (match la_workout_id a with Some _ => _ | None => _ end);
      [|now left].
    right. exists a, ex. repeat split.
    + apply orb_true_iff in Hu as [H|H]; apply String.eqb_eq in H; auto.
    + now apply Z.leb_gt.
    + rewrite Hex. discriminate.
    + exact Hex.
  - left. now rewrite cmd_summary_readonly.
  - now left.
Qed.

(* ------------------------------------------------------------------ *)
(** ** Unit conversion *)

Lemma logged_set_canonical a d wid ex :
  log_accepted a d -> canonical (logged_set a d wid ex).
Proof.
  intros ([Hu|Hu] & _). all: exists (la_weight a); split; [reflexivity|].
  all: unfold logged_set; cbn [input_unit weight_kg]; rewrite Hu.
  - left. split; reflexivity.
  - right. split; reflexivity.
Qed.

(** C4: the conversion is the identity for kg and multiplies by 0.45359237
    for lb; a log that succeeds appends one set row that holds the value
    and the unit entered together with the conversion of that pair; and in
    every store built by the commands each set row keeps a (value, unit)
    pair and has [weight_kg] equal to the value for kg and to the value
    times 0.45359237 for lb. *)
Theorem canonical_weight_invariant :
  (forall w,
     to_kg w "kg" = w /\ to_kg w "lb" = (w * (45359237 # 100000000))%Q) /\
  (forall a d,
     log_accepted a d ->
     (forall i, la_workout_id a = Some i -> In i (map w_id (workouts d))) ->
     exists wid d' s,
       cmd_log a d = (Ok wid, d') /\
       sets d' = sets d ++ [s] /\
       input_weight s = Some (la_weight a) /\
       input_unit s = Some (lower (la_unit a)) /\
       weight_kg s = to_kg (la_weight a) (lower (la_unit a))) /\
  (forall d, reachable d -> Forall canonical (sets d)).
Proof.
  split; [intros w; split; reflexivity|]. split.
  - intros a d Hacc Hid.
    destruct (exercise_named (la_exercise a) d) as [ex|] eqn:Hex;
      [|now destruct Hacc as (_ & _ & H)].
    exists (fst (logged_workouts a d)),
      (mkdb (exercises d) (snd (logged_workouts a d))
         (sets d ++ [logged_set a d (fst (logged_workouts a d)) ex])),
      (logged_set a d (fst (logged_workouts a d)) ex).
    split; [|repeat split].
    rewrite cmd_log_eq, Hex.
    destruct Hacc as (Hu & Hr & _).
    replace (String.eqb (lower (la_unit a)) "kg"
             || String.eqb (lower (la_unit a)) "lb") with true
      by (destruct Hu as [Hu|Hu]; rewrite Hu; reflexivity).
    cbn [negb]. apply Z.leb_gt in Hr. rewrite Hr.
    destruct (la_workout_id a) as [i|]; [|reflexivity].
    now rewrite (proj2 (existsb_id_In i (workouts d)) (Hid i eq_refl)).
  - intros d H. induction H as [|d c H IH]; [constructor|].
    destruct (exec_sets c d) as [E|(a & ex & _ & Hacc & _ & E)]; rewrite E.
    + exact IH.
    + cbn [sets]. apply Forall_app. split; [exact IH|].
      constructor; [|constructor]. now apply logged_set_canonical.
Qed.

Lemma canonical_weight_invariant_witness :
  let a := mk_log_args "Bench Press" 220 5 "LB" None None (mkdate 2024 3 5)
             (mkdatetime (mkdate 2024 3 5) 9 30 0) None in
  let d := exec (AddExercise (mk_add_exercise_args "Bench Press" None None))
             empty_db in
  (exists wid d' s,
     cmd_log a d = (Ok wid, d') /\
     sets d' = sets d ++ [s] /\
     input_weight s = Some 220%Q /\
     input_unit s = Some "lb"%string /\
     weight_kg s = (220 * (45359237 # 100000000))%Q) /\
  Forall canonical (sets (exec (Log a) d)).
Proof.
  intros a d. split.
  - destruct (proj1 (proj2 canonical_weight_invariant) a d)
      as (wid & d' & s & H1 & H2 & H3 & H4 & H5).
    + split; [right; reflexivity|]. split; [simpl; lia|simpl; discriminate].
    + intros i Hi. discriminate Hi.
    + exists wid, d', s. repeat split; assumption.
  - apply (proj2 (proj2 canonical_weight_invariant)).
    apply reachable_exec, reachable_exec, reachable_empty.
Defined.

(* ------------------------------------------------------------------ *)
(** ** Logging against an unknown exercise *)



(* ------------------------------------------------------------------ *)
(** ** Exercise upsert *)

Section Upsert.

Variables (n : string) (p s : option string).

Lemma find_after_update (ex : Exercise) (l : list Exercise) :
  find (fun e => String.eqb (name e) n) l = Some ex ->
  find (fun e => String.eqb (name e) n)
       (map (fun e => if id e =? id ex then merged p s e else e) l)
  = Some (merged p s ex).
Proof.
  induction l as [|e l IH]; cbn [find map]; [discriminate|].
  destruct (String.eqb (name e) n) eqn:E.
  - intros [= ->]. rewrite Z.eqb_refl. cbn [name merged]. now rewrite E.
  - intros H. destruct (id e =? id ex); cbn [name merged]; rewrite E; auto.
Qed.

Lemma update_keeps_others (ex : Exercise) (l : list Exercise) (e : Exercise) :
  In e l -> id e <> id ex ->
  In e (map (fun e => if id e =? id ex then merged p s e else e) l).
Proof.
  intros Hin Hne. apply in_map_iff. exists e. split; [|exact Hin].
  apply Z.eqb_neq in Hne. now rewrite Hne.
Qed.

(** C8: re-adding an existing exercise updates its row in place with
    COALESCE: an attribute takes the new value when one is given and keeps
    the stored one when the new value is null; in particular the stored
    secondary muscles survive an upsert that gives only a primary muscle.
    Ids and names, the other exercises, workouts and sets are untouched, and
    the update is committed. *)
Theorem upsert_coalesce (c : conn) (ex : Exercise) :
  exercise_named n (current c) = Some ex ->
  exists r c',
    add_or_update_exercise n p s c = (Ok r, c') /\
    committed c' = current c' /\
    exercise_named n (current c') =
      Some (mkExercise (id ex) (name ex)
              (COALESCE p (primary_muscle ex))
              (COALESCE s (secondary_muscles ex))) /\
    (forall v, p = Some v ->
       option_map primary_muscle (exercise_named n (current c')) = Some (Some v)) /\
    (p = None ->
       option_map primary_muscle (exercise_named n (current c'))
       = Some (primary_muscle ex)) /\
    (forall v, s = Some v ->
       option_map secondary_muscles (exercise_named n (current c')) = Some (Some v)) /\
    (s = None ->
       option_map secondary_muscles (exercise_named n (current c'))
       = Some (secondary_muscles ex)) /\
    map id (exercises (current c')) = map id (exercises (current c)) /\
    map name (exercises (current c')) = map name (exercises (current c)) /\
    (forall e, In e (exercises (current c)) -> id e <> id ex ->
       In e (exercises (current c'))) /\
    workouts (current c') = workouts (current c) /\
    sets (current c') = sets (current c).
Proof.
  intros Hex. rewrite add_or_update_exercise_eq. cbv zeta. rewrite Hex.
  eexists _, _. split; [reflexivity|]. cbn [current committed exercises workouts sets].
  assert (Hf : exercise_named n
                 (mkdb (map (fun e => if id e =? id ex then merged p s e else e)
                          (exercises (current c)))
                    (workouts (current c)) (sets (current c)))
               = Some (merged p s ex))
    by (apply find_after_update, Hex).
  unfold merged in Hf. rewrite Hf. cbn [option_map primary_muscle secondary_muscles].
  repeat split.
  - now intros v ->.
  - now intros ->.
  - now intros v ->.
  - now intros ->.
  - rewrite map_map. apply map_ext. intros e. now destruct (id e =? id ex).
  - rewrite map_map. apply map_ext. intros e. now destruct (id e =? id ex).
  - intros e. apply update_keeps_others.
Qed.

(** Where the record returned by the upsert is the row it wrote: whenever
    neither attribute is given as the empty string. *)
Lemma upsert_returns_row (c : conn) (ex : Exercise) :
  exercise_named n (current c) = Some ex ->
  p <> Some EmptyString -> s <> Some EmptyString ->
  exists r c',
    add_or_update_exercise n p s c = (Ok r, c') /\
    exercise_named n (current c') = Some r.
Proof.
  intros Hex Hp Hs. rewrite add_or_update_exercise_eq. cbv zeta. rewrite Hex.
  eexists _, _. split; [reflexivity|]. cbn [current].
  pose proof (find_after_update ex _ Hex) as Hf. unfold merged in Hf.
  unfold exercise_named at 1. cbn [exercises]. rewrite Hf.
  apply exercise_named_In in Hex as [_ ->].
  destruct p as [[|]|], s as [[|]|]; try reflexivity; congruence.
Qed.

End Upsert.

Lemma upsert_coalesce_witness :
  let d := mkdb [mkExercise 1 "Bench Press" (Some "Chest"%string) (Some "Triceps"%string)]
             [] [] in
  exists r c',
    add_or_update_exercise "Bench Press" (Some "Pectorals"%string) None (mkconn d d)
    = (Ok r, c') /\
    exercise_named "Bench Press" (current c')
    = Some (mkExercise 1 "Bench Press" (Some "Pectorals"%string) (Some "Triceps"%string)).
Proof.
  intros d.
  destruct (upsert_coalesce "Bench Press" (Some "Pectorals"%string) None (mkconn d d)
              (mkExercise 1 "Bench Press" (Some "Chest"%string) (Some "Triceps"%string))
              eq_refl) as (r & c' & H1 & _ & H2 & _).
  exists r, c'. split; [exact H1 | exact H2].
Defined.

(** C10 fails on the code: re-adding "Bench Press" with the primary muscle
    given as the empty string (from the command line, [--primary] followed by a
    blank) writes the empty string to the row, while the record returned
    still carries the old value. *)
Theorem upsert_return_differs_from_row :
  let d := mkdb [mkExercise 1 "Bench Press" (Some "Chest"%string) (Some "Triceps"%string)]
             [] [] in
  let stored := mkExercise 1 "Bench Press" (Some EmptyString) (Some "Triceps"%string) in
  let returned := mkExercise 1 "Bench Press" (Some "Chest"%string) (Some "Triceps"%string) in
  add_or_update_exercise "Bench Press" (Some EmptyString) None (mkconn d d)
    = (Ok returned, mkconn (mkdb [stored] [] []) (mkdb [stored] [] [])) /\
  cmd_add_exercise (mk_add_exercise_args "Bench Press" (Some " "%string) None) d
    = (Ok returned, mkdb [stored] [] []) /\
  exercise_named "Bench Press" (mkdb [stored] [] []) = Some stored /\
  returned <> stored.
Proof.
  cbv zeta. repeat split. discriminate.
Qed.

(* ------------------------------------------------------------------ *)
(** ** Keys and references of the stores the commands build *)

Lemma next_rowid_above ids i : In i ids -> i < next_rowid ids.
Proof.
  unfold next_rowid. induction ids as [|j ids IH]; cbn [fold_right In]; [tauto|].
  intros [->|H]; [lia|]. specialize (IH H). lia.
Qed.

Lemma next_rowid_fresh ids : ~ In (next_rowid ids) ids.
Proof. intros H. apply next_rowid_above in H. lia. Qed.

Lemma NoDup_snoc {A} (l : list A) (x : A) :
  NoDup l -> ~ In x l -> NoDup (l ++ [x]).
Proof.
  induction l as [|y l IH]; cbn [app]; intros Hl Hx.
  - constructor; [tauto|constructor].
  - inversion Hl as [|? ? Hy Hl']; subst. constructor.
    + rewrite in_app_iff. cbn [In]. intros [H|[H|[]]]; [tauto|].
      apply Hx. now left.
    + apply IH; [exact Hl'|]. intros H. apply Hx. now right.
Qed.

(** The ids in [workouts] after a successful log: the ones before, plus a
    fresh one when the date had no workout. *)
Lemma logged_workouts_ids a d :
  map w_id (snd (logged_workouts a d)) = map w_id (workouts d) \/
  (la_workout_id a = None /\ workouts_on (la_date a) d = [] /\
   fst (logged_workouts a d) = next_rowid (map w_id (workouts d)) /\
   snd (logged_workouts a d) =
     workouts d ++
       [mkWorkout (next_rowid (map w_id (workouts d)))
          (date_isoformat (la_date a)) (datetime_isoformat (la_ts a))
          (Some (datetime_isoformat (la_ts a))) None]).
Proof.
  unfold logged_workouts. destruct (la_workout_id a) as [i|]; cbn [snd fst].
  - left. now apply touch_ids.
  - destruct (last_by_id (workouts_on (la_date a) d)) as [r|] eqn:Hl; cbn [snd fst].
    + left. destruct (match end_time r with Some _ => _ | None => _ end);
        [now apply touch_ids | reflexivity].
    + right. apply last_by_id_None in Hl. auto.
Qed.

Lemma logged_workouts_target a d :
  match la_workout_id a with
  | Some i => existsb (fun w => w_id w =? i) (workouts d) = true
  | None => True
  end ->
  In (fst (logged_workouts a d)) (map w_id (snd (logged_workouts a d))).
Proof.
  unfold logged_workouts. destruct (la_workout_id a) as [i|]; cbn [snd fst].
  - intros H. rewrite touch_ids by reflexivity. now apply existsb_id_In.
  - intros _. destruct (last_by_id (workouts_on (la_date a) d)) as [r|] eqn:Hl;
      cbn [snd fst].
    + apply last_by_id_In in Hl. unfold workouts_on in Hl.
      apply filter_In in Hl as [Hl _].
      destruct (match end_time r with Some _ => _ | None => _ end);
        [rewrite touch_ids by reflexivity|]; now apply in_map.
    + rewrite map_app, in_app_iff. right. now left.
Qed.

Lemma exec_effect c d : effect d c (exec c d).
Proof.
  destruct c as [a|a|a|]; cbn [exec].
  - rewrite cmd_add_exercise_eq. cbv zeta.
    rewrite add_or_update_exercise_eq. cbn [current]. cbv zeta.
    destruct (exercise_named _ d) eqn:Hex; cbn [snd current].
    + apply effect_update; rewrite map_map; apply map_ext; intros x;
        now destruct (id x =? _).
    + now apply effect_insert.
  - rewrite cmd_log_eq.
    destruct (String.eqb (lower (la_unit a)) "kg"
              || String.eqb (lower (la_unit a)) "lb") eqn:Hu;
      cbn [negb snd]; [|constructor].
    destruct (la_reps a <=? 0) eqn:Hr; [constructor|].
    destruct (exercise_named (la_exercise a) d) as [ex|] eqn:Hex; [|constructor].
    destruct (match la_workout_id a with Some _ => _ | None => _ end) eqn:Hw;
      [|constructor].
    cbn [snd]. apply effect_log.
    + repeat split.
      * apply orb_true_iff in Hu as [H|H]; apply String.eqb_eq in H; auto.
      * now apply Z.leb_gt.
      * rewrite Hex. discriminate.
    + exact Hex.
    + apply logged_workouts_target.
      destruct (la_workout_id a); [exact Hw|exact I].
  - rewrite cmd_summary_readonly. constructor.
  - constructor.
Qed.

Lemma effect_db_ok d c d' : effect d c d' -> db_ok d -> db_ok d'.
Proof.
  intros E [H1 H2 H3 H4 H5].
  destruct E as [c|a exs Hi Hn|a n p s Hex|a ex Hacc Hex Hin].
  - now constructor.
  - constructor; cbn [exercises workouts sets]; try rewrite Hi; try rewrite Hn; auto.
  - constructor; cbn [exercises workouts sets]; auto.
    + rewrite map_app. apply NoDup_snoc; [exact H1|apply next_rowid_fresh].
    + rewrite map_app. apply NoDup_snoc; [exact H2|].
      cbn [name]. intros Hc. apply in_map_iff in Hc as (e & He & Hc).
      apply exercise_named_None in Hex.
      assert (Ht : existsb (fun e => String.eqb (name e) n) (exercises d) = true).
      { apply existsb_exists. exists e. split; [exact Hc|now apply String.eqb_eq]. }
      congruence.
    + intros s0 Hs. rewrite map_app, in_app_iff. left. auto.
  - constructor; cbn [exercises workouts sets]; auto.
    + destruct (logged_workouts_ids a d) as [E|(_ & _ & _ & E)]; rewrite E.
      * exact H3.
      * rewrite map_app. apply NoDup_snoc; [exact H3|apply next_rowid_fresh].
    + intros s0 Hs. apply in_app_iff in Hs as [Hs|[<-|[]]]; [auto|].
      cbn [exercise_id logged_set]. apply in_map.
      now apply exercise_named_In in Hex.
    + intros s0 Hs. apply in_app_iff in Hs as [Hs|[<-|[]]].
      * specialize (H5 s0 Hs).
        destruct (logged_workouts_ids a d) as [E|(_ & _ & _ & E)]; rewrite E;
          [exact H5|].
        rewrite map_app, in_app_iff. now left.
      * exact Hin.
Qed.

Lemma reachable_db_ok d : reachable d -> db_ok d.
Proof.
  induction 1 as [|d c H IH].
  - constructor; cbn; (constructor || tauto).
  - exact (effect_db_ok _ _ _ (exec_effect c d) IH).
Qed.

(* ------------------------------------------------------------------ *)
(** ** Order of stored text, and of ISO timestamps *)

Lemma str_compare_refl s : String.compare s s = Eq.
Proof.
  pose proof (String.compare_antisym s s) as H.
  destruct (String.compare s s); [reflexivity|discriminate|discriminate].
Qed.

Lemma ts_le_refl s : ts_le s s.
Proof. unfold ts_le, String.leb. now rewrite str_compare_refl. Qed.

Lemma str_gtb_ts_le now e : str_gtb now e = true -> ts_le e now.
Proof.
  unfold str_gtb, ts_le, String.ltb, String.leb.
  destruct (String.compare e now); (reflexivity || discriminate).
Qed.

Lemma ts_le_trans a b c : ts_le a b -> ts_le b c -> ts_le a c.
Proof.
  unfold ts_le, String.leb. revert b c.
  induction a as [|x a IH]; intros [|y b] [|z c]; cbn [String.compare];
    try (reflexivity || discriminate).
  unfold Ascii.compare.
  destruct (N.compare_spec (N_of_ascii x) (N_of_ascii y)) as [E1|E1|E1];
  destruct (N.compare_spec (N_of_ascii y) (N_of_ascii z)) as [E2|E2|E2];
  destruct (N.compare_spec (N_of_ascii x) (N_of_ascii z)) as [E3|E3|E3];
    try (reflexivity || discriminate || lia).
  apply IH.
Qed.

Lemma lex_assoc a b c : lex (lex a b) c = lex a (lex b c).
Proof. now destruct a. Qed.

Lemma digit_compare x y :
  Ascii.compare (digit x) (digit y) = (x mod 10 ?= y mod 10).
Proof.
  unfold Ascii.compare, digit.
  pose proof (Z.mod_pos_bound x 10 eq_refl) as Hx.
  pose proof (Z.mod_pos_bound y 10 eq_refl) as Hy.
  rewrite !N_ascii_embedding by lia.
  rewrite Z2N.inj_compare by lia.
  apply Z.add_compare_mono_l.
Qed.

Lemma compare_cons_digit x y k k' :
  String.compare (String (digit x) k) (String (digit y) k')
  = lex (x mod 10 ?= y mod 10) (String.compare k k').
Proof.
  cbn [String.compare]. rewrite digit_compare.
  now destruct (x mod 10 ?= y mod 10).
Qed.

Lemma compare_cons_same c k k' :
  String.compare (String c k) (String c k') = String.compare k k'.
Proof.
  cbn [String.compare]. unfold Ascii.compare. now rewrite N.compare_refl.
Qed.

Lemma zfill2_compare a b k k' :
  0 <= a < 100 -> 0 <= b < 100 ->
  String.compare (zfill2 a k) (zfill2 b k') = lex (a ?= b) (String.compare k k').
Proof.
  intros Ha Hb. unfold zfill2. rewrite !compare_cons_digit, <- lex_assoc.
  f_equal. unfold lex.
  destruct (Z.compare_spec ((a / 10) mod 10) ((b / 10) mod 10)) as [E|E|E];
  destruct (Z.compare_spec (a mod 10) (b mod 10)) as [F|F|F];
  destruct (Z.compare_spec a b) as [G|G|G]; try reflexivity; exfalso;
    Z.div_mod_to_equations; lia.
Qed.

Lemma digit_mod x y : x mod 10 = y mod 10 -> digit x = digit y.
Proof. unfold digit. now intros ->. Qed.

Lemma zfill4_split a k :
  zfill4 a k = zfill2 (a / 100) (zfill2 (a mod 100) k).
Proof.
  unfold zfill4, zfill2. f_equal; [|f_equal; f_equal; [|f_equal]].
  - apply digit_mod. Z.div_mod_to_equations; lia.
  - apply digit_mod. Z.div_mod_to_equations; lia.
  - apply digit_mod. Z.div_mod_to_equations; lia.
Qed.

Lemma zfill4_compare a b k k' :
  0 <= a < 10000 -> 0 <= b < 10000 ->
  String.compare (zfill4 a k) (zfill4 b k') = lex (a ?= b) (String.compare k k').
Proof.
  intros Ha Hb. rewrite !zfill4_split.
  rewrite !zfill2_compare by (Z.div_mod_to_equations; lia).
  rewrite <- lex_assoc. f_equal. unfold lex.
  destruct (Z.compare_spec (a / 100) (b / 100)) as [E|E|E];
  destruct (Z.compare_spec (a mod 100) (b mod 100)) as [F|F|F];
  destruct (Z.compare_spec a b) as [G|G|G]; try reflexivity; exfalso;
    Z.div_mod_to_equations; lia.
Qed.

Lemma date_iso_then_compare a b k k' :
  date_ok a -> date_ok b ->
  String.compare (date_iso_then a k) (date_iso_then b k')
  = lex (date_compare a b) (String.compare k k').
Proof.
  intros (Ya & Ma & Da) (Yb & Mb & Db). unfold date_iso_then, date_compare.
  rewrite zfill4_compare by lia. rewrite compare_cons_same.
  rewrite zfill2_compare by lia. rewrite compare_cons_same.
  rewrite zfill2_compare by lia. now rewrite !lex_assoc.
Qed.

Lemma date_isoformat_compare a b :
  date_ok a -> date_ok b ->
  String.compare (date_isoformat a) (date_isoformat b) = date_compare a b.
Proof.
  intros Ha Hb. unfold date_isoformat. rewrite date_iso_then_compare by assumption.
  cbn [String.compare]. unfold date_compare, lex.
  destruct (year a ?= year b), (month a ?= month b), (day a ?= day b); reflexivity.
Qed.

Lemma datetime_isoformat_compare a b :
  datetime_ok a -> datetime_ok b ->
  String.compare (datetime_isoformat a) (datetime_isoformat b)
  = datetime_compare a b.
Proof.
  intros (Da & Ha & Ma & Sa) (Db & Hb & Mb & Sb).
  unfold datetime_isoformat, datetime_compare.
  rewrite date_iso_then_compare by assumption. rewrite compare_cons_same.
  rewrite zfill2_compare by lia. rewrite compare_cons_same.
  rewrite zfill2_compare by lia. rewrite compare_cons_same.
  rewrite zfill2_compare by lia. cbn [String.compare].
  f_equal. f_equal. f_equal. unfold lex. now destruct (second a ?= second b).
Qed.

Lemma date_isoformat_inj a b :
  date_ok a -> date_ok b -> date_isoformat a = date_isoformat b -> a = b.
Proof.
  intros Ha Hb E.
  pose proof (date_isoformat_compare a b Ha Hb) as H.
  rewrite E, str_compare_refl in H. unfold date_compare, lex in H.
  destruct a as [ya ma da], b as [yb mb db]. cbn [year month day] in H.
  destruct (Z.compare_spec ya yb); try discriminate.
  destruct (Z.compare_spec ma mb); try discriminate.
  destruct (Z.compare_spec da db); try discriminate.
  now subst.
Qed.

(* ------------------------------------------------------------------ *)
(** ** Session grouper: the end timestamp *)

Lemma find_touch i j f ws :
  (forall w, w_id (f w) = w_id w) ->
  find (fun w => w_id w =? i) (touch j f ws)
  = option_map (fun w => if w_id w =? j then f w else w)
      (find (fun w => w_id w =? i) ws).
Proof.
  intros Hf. unfold touch. induction ws as [|w ws IH]; cbn [map find option_map]; [reflexivity|].
  destruct (w_id w =? j) eqn:Ej.
  - rewrite Hf. destruct (w_id w =? i); [cbn; now rewrite Ej|exact IH].
  - destruct (w_id w =? i); [cbn; now rewrite Ej|exact IH].
Qed.

Lemma find_app_l {A} (p : A -> bool) l l' x :
  find p l = Some x -> find p (l ++ l') = Some x.
Proof.
  induction l as [|y l IH]; cbn [find app]; [discriminate|].
  destruct (p y); auto.
Qed.

Lemma NoDup_map_eq {A B} (f : A -> B) l x y :
  NoDup (map f l) -> In x l -> In y l -> f x = f y -> x = y.
Proof.
  induction l as [|z l IH]; cbn [map In]; [tauto|].
  intros Hn Hx Hy E. inversion Hn as [|? ? Hz Hn']; subst.
  destruct Hx as [->|Hx], Hy as [->|Hy]; auto.
  - exfalso. apply Hz. rewrite E. now apply in_map.
  - exfalso. apply Hz. rewrite <- E. now apply in_map.
Qed.

Lemma logged_workouts_end a d i w e :
  NoDup (map w_id (workouts d)) ->
  workout_with_id i d = Some w -> end_time w = Some e ->
  exists w' e',
    find (fun w => w_id w =? i) (snd (logged_workouts a d)) = Some w' /\
    end_time w' = Some e' /\ ts_le e e'.
Proof.
  intros Hn Hw He. unfold workout_with_id in Hw.
  assert (Hsame : exists w' e', find (fun w => w_id w =? i) (workouts d) = Some w' /\ end_time w' = Some e' /\ ts_le e e').
  { exists w, e. auto using ts_le_refl. }
  unfold logged_workouts. destruct (la_workout_id a) as [j|]; cbn [snd].
  - rewrite find_touch by reflexivity. rewrite Hw. cbn [option_map].
    destruct (w_id w =? j); [|exists w, e; auto using ts_le_refl].
    unfold later_end. rewrite He. 
    destruct (str_gtb _ e) eqn:G; eexists _, _; cbn [end_time set_end_time];
      (split; [reflexivity|split; [reflexivity|]]).
    + now apply str_gtb_ts_le.
    + apply ts_le_refl.
  - destruct (last_by_id (workouts_on (la_date a) d)) as [r|] eqn:Hl; cbn [snd].
    + destruct (match end_time r with Some _ => _ | None => _ end) eqn:G; [|exact Hsame].
      rewrite find_touch by reflexivity. rewrite Hw. cbn [option_map].
      destruct (w_id w =? w_id r) eqn:Ei; [|exists w, e; auto using ts_le_refl].
      assert (w = r) as <-.
      { apply (NoDup_map_eq w_id (workouts d)); auto.
        - apply find_some in Hw. tauto.
        - apply last_by_id_In in Hl. unfold workouts_on in Hl. apply filter_In in Hl. tauto.
        - now apply Z.eqb_eq. }
      rewrite He in G. eexists _, _; cbn [end_time set_end_time].
      split; [reflexivity|split; [reflexivity|]]. now apply str_gtb_ts_le.
    + rewrite (find_app_l _ _ _ _ Hw). exists w, e. auto using ts_le_refl.
Qed.

Lemma effect_workout_ids d c d' :
  effect d c d' ->
  NoDup (map w_id (workouts d)) -> NoDup (map w_id (workouts d')).
Proof.
  intros E H. destruct E as [c|a exs Hi Hn|a n p s Hex|a ex Hacc Hex Hin];
    cbn [workouts]; auto.
  destruct (logged_workouts_ids a d) as [E|(_ & _ & _ & E)]; rewrite E.
  - exact H.
  - rewrite map_app. apply NoDup_snoc; [exact H|apply next_rowid_fresh].
Qed.

Lemma effect_end_time d c d' i w e :
  effect d c d' ->
  NoDup (map w_id (workouts d)) ->
  workout_with_id i d = Some w -> end_time w = Some e ->
  exists w' e',
    workout_with_id i d' = Some w' /\ end_time w' = Some e' /\ ts_le e e'.
Proof.
  intros E Hn Hw He.
  destruct E as [c|a exs Hi Hn'|a n p s Hex|a ex Hacc Hex Hin];
    try solve [exists w, e; auto using ts_le_refl].
  unfold workout_with_id at 1. cbn [workouts].
  exact (logged_workouts_end a d i w e Hn Hw He).
Qed.

(** C3: in a store whose workout ids are distinct (the primary key), a
    workout that has an end timestamp still has one after any sequence of
    commands, and it is not earlier than before in the order in which the
    code compares timestamps; this covers both the grouping by date and an
    explicit workout id, and sets logged with an earlier clock time. *)
Theorem end_time_monotone (cs : list command) (d : db) (i : Z)
    (w : Workout) (e : string) :
  NoDup (map w_id (workouts d)) ->
  workout_with_id i d = Some w -> end_time w = Some e ->
  exists w' e',
    workout_with_id i (run cs d) = Some w' /\
    end_time w' = Some e' /\ ts_le e e'.
Proof.
  revert d w e. induction cs as [|c cs IH]; intros d w e Hn Hw He.
  - exists w, e. auto using ts_le_refl.
  - cbn [run fold_left]. fold (run cs (exec c d)).
    pose proof (exec_effect c d) as E.
    destruct (effect_end_time _ _ _ i w e E Hn Hw He) as (w1 & e1 & Hw1 & He1 & L1).
    destruct (IH (exec c d) w1 e1 (effect_workout_ids _ _ _ E Hn) Hw1 He1)
      as (w2 & e2 & Hw2 & He2 & L2).
    exists w2, e2. eauto using ts_le_trans.
Qed.

Lemma end_time_monotone_witness :
  let d := mkdb [mkExercise 1 "Bench Press" None None]
             [mkWorkout 1 "2024-03-05" "2024-03-05T09:30:00"
                (Some "2024-03-05T09:30:00"%string) None] [] in
  let a := mk_log_args "Bench Press" 100 5 "kg" None None (mkdate 2024 3 5)
             (mkdatetime (mkdate 2024 3 5) 8 0 0) None in
  exists w' e',
    workout_with_id 1 (run [Log a] d) = Some w' /\
    end_time w' = Some e' /\ ts_le "2024-03-05T09:30:00" e'.
Proof.
  intros d a.
  apply (end_time_monotone [Log a] d 1
           (mkWorkout 1 "2024-03-05" "2024-03-05T09:30:00"
              (Some "2024-03-05T09:30:00"%string) None)
           "2024-03-05T09:30:00").
  - simpl. constructor; [simpl; tauto|constructor].
  - reflexivity.
  - reflexivity.
Defined.

(* ------------------------------------------------------------------ *)
(** ** Session grouper: one workout per date *)

Lemma ids_on_touch (p : string -> bool) i f ws :
  (forall w, w_id (f w) = w_id w) -> (forall w, w_date (f w) = w_date w) ->
  map w_id (filter (fun w => p (w_date w)) (touch i f ws))
  = map w_id (filter (fun w => p (w_date w)) ws).
Proof.
  intros Hi Hd. unfold touch.
  induction ws as [|w ws IH]; cbn [map filter]; [reflexivity|].
  destruct (w_id w =? i).
  - rewrite Hd. destruct (p (w_date w)); cbn [map]; now rewrite ?Hi, IH.
  - destruct (p (w_date w)); cbn [map]; now rewrite IH.
Qed.

Lemma log_accepted_exercises a d d' :
  exercises d' = exercises d -> log_accepted a d -> log_accepted a d'.
Proof.
  unfold log_accepted, exercise_named. now intros ->.
Qed.

Lemma cmd_log_implicit a d :
  la_workout_id a = None -> log_accepted a d ->
  exists ex,
    exercise_named (la_exercise a) d = Some ex /\
    cmd_log a d =
      (Ok (fst (logged_workouts a d)),
       mkdb (exercises d) (snd (logged_workouts a d))
         (sets d ++ [logged_set a d (fst (logged_workouts a d)) ex])).
Proof.
  intros Hi (Hu & Hr & Hex). rewrite cmd_log_eq, Hi.
  destruct (exercise_named (la_exercise a) d) as [ex|]; [|congruence].
  exists ex. split; [reflexivity|].
  replace (String.eqb (lower (la_unit a)) "kg" || String.eqb (lower (la_unit a)) "lb") with true.
  - apply Z.leb_gt in Hr. now rewrite Hr.
  - symmetry. apply orb_true_iff. destruct Hu as [Hu|Hu]; rewrite Hu; auto.
Qed.

Lemma log_groups_by_date a d :
  la_workout_id a = None -> log_accepted a d ->
  exists wid d' s,
    cmd_log a d = (Ok wid, d') /\
    exercises d' = exercises d /\
    sets d' = sets d ++ [s] /\ workout_id s = wid /\
    (forall dt', date_isoformat dt' <> date_isoformat (la_date a) ->
       map w_id (workouts_on dt' d') = map w_id (workouts_on dt' d)) /\
    match workouts_on (la_date a) d with
    | [] =>
        ~ In wid (map w_id (workouts d)) /\
        map w_id (workouts d') = map w_id (workouts d) ++ [wid] /\
        map w_id (workouts_on (la_date a) d') = [wid]
    | _ :: _ =>
        map w_id (workouts d') = map w_id (workouts d) /\
        map w_id (workouts_on (la_date a) d')
        = map w_id (workouts_on (la_date a) d) /\
        In wid (map w_id (workouts_on (la_date a) d))
    end.
Proof.
  intros Hi Hacc. destruct (cmd_log_implicit a d Hi Hacc) as (ex & Hex & E).
  eexists _, _, _. split; [exact E|]. cbn [exercises sets workouts].
  split; [reflexivity|]. split; [reflexivity|]. split; [reflexivity|].
  unfold logged_workouts. rewrite Hi.
  destruct (last_by_id (workouts_on (la_date a) d)) as [r|] eqn:Hl; cbn [fst snd].
  - assert (Hr : In r (workouts_on (la_date a) d)) by now apply last_by_id_In.
    destruct (workouts_on (la_date a) d) as [|w0 l0] eqn:Hon; [destruct Hr|].
    rewrite <- Hon in *. clear Hon.
    unfold workouts_on. cbn [workouts].
    destruct (match end_time r with Some _ => _ | None => _ end).
    + split; [|split; [|split]].
      * intros dt' _. now apply (ids_on_touch (fun s => String.eqb s (date_isoformat dt'))).
      * now apply touch_ids.
      * now apply (ids_on_touch (fun s => String.eqb s (date_isoformat (la_date a)))).
      * now apply in_map.
    + split; [|split; [|split]]; auto. now apply in_map.
  - apply last_by_id_None in Hl. rewrite Hl.
    unfold workouts_on in *. cbn [workouts]. split; [|split; [|split]].
    + intros dt' Hne. rewrite filter_app. cbn [filter w_date].
      apply String.eqb_neq in Hne. rewrite String.eqb_sym, Hne. now rewrite app_nil_r.
    + apply next_rowid_fresh.
    + now rewrite map_app.
    + rewrite filter_app, Hl. cbn [filter w_date app]. now rewrite String.eqb_refl.
Qed.

(** C2: without an explicit workout id, an accepted log on a date that
    already has a workout adds no workout row and attaches its set to a
    workout of that date; and from a store with no workout on either date,
    two logs on one date create one workout row that both sets go to, and a
    log on another date creates a second row. *)
Theorem one_workout_per_date :
  (forall (a : log_args) (d : db),
     la_workout_id a = None -> log_accepted a d ->
     workouts_on (la_date a) d <> [] ->
     exists wid d' s,
       cmd_log a d = (Ok wid, d') /\
       sets d' = sets d ++ [s] /\ workout_id s = wid /\
       In wid (map w_id (workouts_on (la_date a) d)) /\
       map w_id (workouts d') = map w_id (workouts d) /\
       map w_id (workouts_on (la_date a) d')
       = map w_id (workouts_on (la_date a) d)) /\
  (forall (a1 a2 a3 : log_args) (d : db),
     la_workout_id a1 = None -> la_workout_id a2 = None ->
     la_workout_id a3 = None ->
     log_accepted a1 d -> log_accepted a2 d -> log_accepted a3 d ->
     date_ok (la_date a1) -> date_ok (la_date a3) ->
     la_date a2 = la_date a1 -> la_date a3 <> la_date a1 ->
     workouts_on (la_date a1) d = [] -> workouts_on (la_date a3) d = [] ->
     exists w1 w3 d1 d2 d3 s1 s2 s3,
       cmd_log a1 d = (Ok w1, d1) /\
       cmd_log a2 d1 = (Ok w1, d2) /\
       cmd_log a3 d2 = (Ok w3, d3) /\
       sets d2 = sets d ++ [s1; s2] /\
       workout_id s1 = w1 /\ workout_id s2 = w1 /\
       map w_id (workouts d2) = map w_id (workouts d) ++ [w1] /\
       map w_id (workouts_on (la_date a1) d2) = [w1] /\
       sets d3 = sets d ++ [s1; s2; s3] /\ workout_id s3 = w3 /\
       w3 <> w1 /\
       map w_id (workouts d3) = map w_id (workouts d) ++ [w1; w3] /\
       map w_id (workouts_on (la_date a1) d3) = [w1] /\
       map w_id (workouts_on (la_date a3) d3) = [w3]).
Proof.
  split.
  - intros a d Hi Hacc Hon.
    destruct (log_groups_by_date a d Hi Hacc)
      as (wid & d' & s & E & _ & Hs & Hw & _ & H).
    destruct (workouts_on (la_date a) d) as [|w0 l0] eqn:Eon; [congruence|].
    destruct H as (H1 & H2 & H3).
    exists wid, d', s. rewrite <- Eon in *. repeat split; auto.
  - intros a1 a2 a3 d I1 I2 I3 A1 A2 A3 O1 O3 D2 D3 N1 N3.
    assert (Hiso : date_isoformat (la_date a3) <> date_isoformat (la_date a1)).
    { intros E. apply D3. now apply date_isoformat_inj. }
    destruct (log_groups_by_date a1 d I1 A1)
      as (w1 & d1 & s1 & E1 & X1 & S1 & W1 & F1 & H1).
    rewrite N1 in H1. destruct H1 as (H1a & H1b & H1c).
    assert (A2' : log_accepted a2 d1) by now apply (log_accepted_exercises a2 d).
    destruct (log_groups_by_date a2 d1 I2 A2')
      as (w2 & d2 & s2 & E2 & X2 & S2 & W2 & F2 & H2).
    rewrite D2 in H2, F2.
    destruct (workouts_on (la_date a1) d1) as [|w0 l0] eqn:Eon; [discriminate|].
    rewrite <- Eon in *. clear Eon. destruct H2 as (H2a & H2b & H2c).
    rewrite H1c in H2c. destruct H2c as [<-|[]].
    assert (A3' : log_accepted a3 d2).
    { apply (log_accepted_exercises a3 d); [congruence|exact A3]. }
    destruct (log_groups_by_date a3 d2 I3 A3')
      as (w3 & d3 & s3 & E3 & X3 & S3 & W3 & F3 & H3).
    assert (N3' : workouts_on (la_date a3) d2 = []).
    { apply (map_eq_nil w_id). rewrite (F2 _ Hiso), (F1 _ Hiso), N3. reflexivity. }
    rewrite N3' in H3. destruct H3 as (H3a & H3b & H3c).
    exists w1, w3, d1, d2, d3, s1, s2, s3.
    repeat match goal with |- _ /\ _ => split end; auto.
    + rewrite S2, S1, <- app_assoc. reflexivity.
    + congruence.
    + congruence.
    + rewrite S3, S2, S1, <- !app_assoc. reflexivity.
    + intros ->. apply H3a. rewrite H2a, H1b, in_app_iff. right. now left.
    + rewrite H3b, H2a, H1b, <- app_assoc. reflexivity.
    + rewrite (F3 (la_date a1)) by congruence. congruence.
Qed.

Lemma one_workout_per_date_witness :
  let d := mkdb [mkExercise 1 "Bench Press" None None] [] [] in
  let a1 := mk_log_args "Bench Press" 100 5 "kg" None None (mkdate 2024 3 5)
              (mkdatetime (mkdate 2024 3 5) 9 30 0) None in
  let a2 := mk_log_args "Bench Press" 220 5 "lb" None None (mkdate 2024 3 5)
              (mkdatetime (mkdate 2024 3 5) 8 0 0) None in
  let a3 := mk_log_args "Bench Press" 100 3 "kg" None None (mkdate 2024 3 6)
              (mkdatetime (mkdate 2024 3 6) 9 0 0) None in
  exists w1 w3 d1 d2 d3 s1 s2 s3,
    cmd_log a1 d = (Ok w1, d1) /\
    cmd_log a2 d1 = (Ok w1, d2) /\
    cmd_log a3 d2 = (Ok w3, d3) /\
    sets d2 = sets d ++ [s1; s2] /\
    workout_id s1 = w1 /\ workout_id s2 = w1 /\
    map w_id (workouts d2) = map w_id (workouts d) ++ [w1] /\
    map w_id (workouts_on (la_date a1) d2) = [w1] /\
    sets d3 = sets d ++ [s1; s2; s3] /\ workout_id s3 = w3 /\
    w3 <> w1 /\
    map w_id (workouts d3) = map w_id (workouts d) ++ [w1; w3] /\
    map w_id (workouts_on (la_date a1) d3) = [w1] /\
    map w_id (workouts_on (la_date a3) d3) = [w3].
Proof.
  intros d a1 a2 a3.
  apply (proj2 one_workout_per_date a1 a2 a3 d); try reflexivity.
  - split; [left; reflexivity|]. split; [simpl; lia|simpl; discriminate].
  - split; [right; reflexivity|]. split; [simpl; lia|simpl; discriminate].
  - split; [left; reflexivity|]. split; [simpl; lia|simpl; discriminate].
  - unfold date_ok; simpl; lia.
  - unfold date_ok; simpl; lia.
  - simpl; discriminate.
Defined.

(* ------------------------------------------------------------------ *)
(** ** Analytics: aggregates, ordering and joins *)

Lemma Qmaxb_ge_l a b : (a <= Qmaxb a b)%Q.
Proof.
  unfold Qmaxb. destruct (Qle_bool a b) eqn:E.
  - now apply Qle_bool_iff.
  - apply Qle_refl.
Qed.

Lemma Qmaxb_ge_r a b : (b <= Qmaxb a b)%Q.
Proof.
  unfold Qmaxb. destruct (Qle_bool a b) eqn:E.
  - apply Qle_refl.
  - destruct (Qlt_le_dec b a) as [H|H]; [now apply Qlt_le_weak|].
    apply Qle_bool_iff in H. congruence.
Qed.

Lemma fold_Qmaxb_spec l x :
  In (fold_left Qmaxb l x) (x :: l) /\
  (forall y, In y (x :: l) -> (y <= fold_left Qmaxb l x)%Q).
Proof.
  revert x. induction l as [|z l IH]; intros x; cbn [fold_left].
  - split; [now left|]. intros y [<-|[]]. apply Qle_refl.
  - destruct (IH (Qmaxb x z)) as [H1 H2]. split.
    + destruct H1 as [H1|H1]; [|right; now right].
      rewrite <- H1. unfold Qmaxb. destruct (Qle_bool x z); [right|]; now left.
    + intros y [<-|[<-|Hy]].
      * eapply Qle_trans; [apply Qmaxb_ge_l|]. apply H2. now left.
      * eapply Qle_trans; [apply Qmaxb_ge_r|]. apply H2. now left.
      * apply H2. now right.
Qed.

Lemma sql_max_spec l m :
  sql_max l = Some m -> In m l /\ (forall y, In y l -> (y <= m)%Q).
Proof.
  destruct l as [|x l]; cbn [sql_max]; [discriminate|].
  intros [= <-]. apply fold_Qmaxb_spec.
Qed.

Lemma sql_max_None l : sql_max l = None <-> l = [].
Proof. destruct l; cbn; split; (reflexivity || discriminate). Qed.

Lemma insert_by_perm {A} (le : A -> A -> bool) x l :
  Permutation (insert_by le x l) (x :: l).
Proof.
  induction l as [|y l IH]; cbn [insert_by]; [reflexivity|].
  destruct (le x y); [reflexivity|].
  rewrite IH. apply perm_swap.
Qed.

Lemma sort_by_perm {A} (le : A -> A -> bool) l :
  Permutation (sort_by le l) l.
Proof.
  unfold sort_by. induction l as [|x l IH]; cbn [fold_right]; [reflexivity|].
  rewrite insert_by_perm. now constructor.
Qed.

Lemma filter_perm {A} (f : A -> bool) l l' :
  Permutation l l' -> Permutation (filter f l) (filter f l').
Proof.
  induction 1 as [|x l l' H IH|x y l|l l' l'' H1 IH1 H2 IH2]; cbn [filter].
  - reflexivity.
  - destruct (f x); [now constructor|exact IH].
  - destruct (f x), (f y); try reflexivity. apply perm_swap.
  - now rewrite IH1.
Qed.

Lemma flat_map_nil {A B} (g : A -> list B) l :
  (forall y, In y l -> g y = []) -> flat_map g l = [].
Proof.
  induction l as [|x l IH]; cbn [flat_map]; [reflexivity|].
  intros H. rewrite (H x) by now left. apply IH. intros y Hy. apply H. now right.
Qed.

Lemma flat_map_unique {A B} (g : A -> list B) l x :
  NoDup l -> In x l -> (forall y, In y l -> y <> x -> g y = []) ->
  flat_map g l = g x.
Proof.
  induction l as [|z l IH]; cbn [flat_map In]; [tauto|].
  intros Hn Hx Hg. inversion Hn as [|? ? Hz Hn']; subst.
  destruct Hx as [->|Hx].
  - rewrite (flat_map_nil g l); [apply app_nil_r|].
    intros y Hy. apply Hg; [now right|]. intros ->. tauto.
  - rewrite (Hg z); [|now left|intros ->; tauto]. cbn [app].
    apply IH; auto.
Qed.

Lemma flat_map_flat_map {A B C} (f : B -> list C) (h : A -> list B) l :
  flat_map f (flat_map h l) = flat_map (fun k => flat_map f (h k)) l.
Proof.
  induction l as [|x l IH]; cbn [flat_map]; [reflexivity|].
  now rewrite flat_map_app, IH.
Qed.

(* ------------------------------------------------------------------ *)
(** ** Personal records *)

Section Prs.

Variable d : db.
Hypothesis Hok : db_ok d.

(** The rows of the subquery that a set joins with. *)
Lemma prs_join_max (s : SetRow) (x : Exercise * SetRow) :
  In s (sets d) ->
  flat_map
    (fun m => if (fst m =? exercise_id s)
                 && Qeq_bool (snd m) (sql_e1rm (weight_kg s) (reps s))
              then [x] else [])
    (max_e1rm_by_exercise d)
  = if is_top d s then [x] else [].
Proof.
  intros Hs. unfold max_e1rm_by_exercise. rewrite flat_map_flat_map.
  rewrite (flat_map_unique _ _ (exercise_id s)).
  - unfold is_top. fold rank_of.
    change (fun s0 => sql_e1rm (weight_kg s0) (reps s0)) with rank_of.
    destruct (sql_max (map rank_of (sets_of (exercise_id s) d))) as [m|];
      [|reflexivity].
    cbn [flat_map fst snd]. rewrite Z.eqb_refl. cbn [andb].
    change (sql_e1rm (weight_kg s) (reps s)) with (rank_of s).
    destruct (Qeq_bool m (rank_of s)); reflexivity.
  - apply NoDup_nodup.
  - apply nodup_In. now apply in_map.
  - intros k _ Hk.
    destruct (sql_max _) as [m|]; [|reflexivity].
    cbn [flat_map fst snd]. apply Z.eqb_neq in Hk. now rewrite Hk.
Qed.

Lemma prs_join_row (s : SetRow) :
  In s (sets d) ->
  exists e,
    In e (exercises d) /\ id e = exercise_id s /\
    flat_map
      (fun e =>
         flat_map
           (fun m =>
              if (id e =? exercise_id s) && (fst m =? exercise_id s)
                 && Qeq_bool (snd m) (sql_e1rm (weight_kg s) (reps s))
              then [(e, s)] else [])
           (max_e1rm_by_exercise d))
      (exercises d)
    = if is_top d s then [(e, s)] else [].
Proof.
  intros Hs. destruct Hok as [H1 H2 H3 H4 H5].
  destruct (proj1 (in_map_iff _ _ _) (H4 s Hs)) as (e & He & Hin).
  exists e. split; [exact Hin|]. split; [exact He|].
  rewrite (flat_map_unique _ _ e).
  - rewrite <- (prs_join_max s (e, s) Hs). apply flat_map_ext.
    intros m. rewrite He, Z.eqb_refl. reflexivity.
  - now apply NoDup_map_inv in H1.
  - exact Hin.
  - intros y Hy Hne. apply flat_map_nil. intros m _.
    replace (id y =? exercise_id s) with false; [reflexivity|].
    symmetry. apply Z.eqb_neq. intros E. apply Hne.
    apply (NoDup_map_eq id (exercises d)); auto. congruence.
Qed.

Lemma prs_rows_of (e : Exercise) (l : list SetRow) :
  In e (exercises d) -> incl l (sets d) ->
  filter (fun p => String.eqb (name (fst p)) (name e))
    (flat_map
       (fun s =>
          flat_map
            (fun e =>
               flat_map
                 (fun m =>
                    if (id e =? exercise_id s) && (fst m =? exercise_id s)
                       && Qeq_bool (snd m) (sql_e1rm (weight_kg s) (reps s))
                    then [(e, s)] else [])
                 (max_e1rm_by_exercise d))
            (exercises d))
       l)
  = map (fun s => (e, s))
      (filter (is_top d) (filter (fun s => exercise_id s =? id e) l)).
Proof.
  intros He. induction l as [|s l IH]; intros Hl; [reflexivity|].
  cbn [flat_map]. rewrite filter_app.
  rewrite IH by (intros x Hx; apply Hl; now right). clear IH.
  destruct (prs_join_row s) as (es & Hes & Hid & ->); [apply Hl; now left|].
  cbn [filter]. destruct Hok as [H1 H2 _ _ _].
  destruct (exercise_id s =? id e) eqn:E.
  - apply Z.eqb_eq in E.
    assert (es = e) as -> by (apply (NoDup_map_eq id (exercises d)); auto; congruence).
    cbn [filter]. destruct (is_top d s); [|reflexivity].
    cbn [filter fst]. now rewrite String.eqb_refl.
  - destruct (is_top d s); [|reflexivity].
    cbn [filter fst].
    replace (String.eqb (name es) (name e)) with false; [reflexivity|].
    symmetry. apply String.eqb_neq. intros En.
    assert (es = e) as -> by (apply (NoDup_map_eq name (exercises d)); auto).
    apply Z.eqb_neq in E. congruence.
Qed.

End Prs.

Lemma sets_of_exercise eid d s : In s (sets_of eid d) -> exercise_id s = eid.
Proof.
  unfold sets_of. intros H. apply filter_In in H as [_ H]. now apply Z.eqb_eq.
Qed.

Lemma top_sets_nonempty d eid :
  sets_of eid d <> [] -> top_sets eid d <> [].
Proof.
  intros Hne. unfold top_sets.
  destruct (sql_max (map rank_of (sets_of eid d))) as [m|] eqn:Hm.
  - destruct (sql_max_spec _ _ Hm) as [Hin _].
    apply in_map_iff in Hin as (s & Hr & Hs).
    intros E.
    assert (Hf : In s (filter (is_top d) (sets_of eid d))).
    { apply filter_In. split; [exact Hs|]. unfold is_top.
      rewrite (sets_of_exercise _ _ _ Hs), Hm, Hr.
      apply Qeq_bool_iff. reflexivity. }
    rewrite E in Hf. destruct Hf.
  - apply sql_max_None in Hm. apply map_eq_nil in Hm. contradiction.
Qed.

Lemma top_sets_max d eid s :
  In s (top_sets eid d) ->
  In s (sets_of eid d) /\
  forall s', In s' (sets_of eid d) -> (rank_of s' <= rank_of s)%Q.
Proof.
  unfold top_sets. intros H. apply filter_In in H as [Hs Hm].
  split; [exact Hs|]. intros s' Hs'.
  unfold is_top in Hm. rewrite (sets_of_exercise _ _ _ Hs) in Hm.
  destruct (sql_max (map rank_of (sets_of eid d))) as [m|] eqn:E; [|discriminate].
  apply Qeq_bool_iff in Hm. rewrite <- Hm.
  apply (sql_max_spec _ _ E). now apply in_map.
Qed.

Lemma rank_is_e1rm s : 1 < reps s -> rank_of s = e1rm_of s.
Proof.
  intros H. unfold rank_of, e1rm_of, sql_e1rm, epley_e1rm.
  apply Z.leb_gt in H. now rewrite H.
Qed.

Lemma prs_for_map n (l : list (Exercise * SetRow)) :
  prs_for n (map pr_row_of l)
  = map pr_row_of (filter (fun p => String.eqb (name (fst p)) n) l).
Proof.
  unfold prs_for. induction l as [|[e s] l IH]; cbn [map filter]; [reflexivity|].
  cbn [pr_row_of pr_name fst]. destruct (String.eqb (name e) n); cbn [map]; now rewrite IH.
Qed.

(** The lines of [prs] for an exercise with at least one set: one line for
    each of its sets whose ranking value [weight_kg * (1 + reps/30)] is the
    largest of the exercise, so at least one line.  When all the sets of
    the exercise have more than one rep the ranking value is the e1RM.
    With sets 80kg x 10 and 100kg x 3 the only line is the 100kg x 3
    set. *)
Lemma prs_lines_are_top_ranked :
  (forall (d : db) (e : Exercise),
     db_ok d -> In e (exercises d) -> sets_of (id e) d <> [] ->
     exists rows,
       cmd_prs d = (Ok rows, d) /\
       Permutation (prs_for (name e) rows)
         (map (fun s => pr_row_of (e, s)) (top_sets (id e) d)) /\
       top_sets (id e) d <> [] /\
       (forall s, In s (top_sets (id e) d) ->
          In s (sets_of (id e) d) /\
          forall s', In s' (sets_of (id e) d) -> (rank_of s' <= rank_of s)%Q) /\
       ((forall s, In s (sets_of (id e) d) -> 1 < reps s) ->
        forall s s', In s (top_sets (id e) d) -> In s' (sets_of (id e) d) ->
          (e1rm_of s' <= e1rm_of s)%Q)) /\
  (let d :=
     run [AddExercise (mk_add_exercise_args "Squat" None None);
          Log (mk_log_args "Squat" 80 10 "kg" None None (mkdate 2024 3 5)
                 (mkdatetime (mkdate 2024 3 5) 9 0 0) None);
          Log (mk_log_args "Squat" 100 3 "kg" None None (mkdate 2024 3 5)
                 (mkdatetime (mkdate 2024 3 5) 9 10 0) None)] empty_db in
   cmd_prs d
   = (Ok [mk_pr_row "Squat" "2024-03-05T09:10:00" (Some 100%Q)
            (Some "kg"%string) 3 (sql_e1rm 100 3)], d)).
Proof.
  split; [|reflexivity].
  intros d e Hok He Hne. exists (map pr_row_of (prs_join d)).
  split; [apply cmd_prs_eq|]. split; [|split; [|split]].
  - rewrite prs_for_map, <- (map_map (fun s => (e, s)) pr_row_of).
    apply Permutation_map. unfold prs_join.
    rewrite (filter_perm _ _ _ (sort_by_perm _ _)).
    rewrite (prs_rows_of d Hok e (sets d) He (incl_refl _)).
    reflexivity.
  - now apply top_sets_nonempty.
  - apply top_sets_max.
  - intros Hr s s' Hs Hs'. destruct (top_sets_max _ _ _ Hs) as [Hin Hmax].
    rewrite <- !rank_is_e1rm by auto. now apply Hmax.
Qed.

Lemma reachable_run cs d : reachable d -> reachable (run cs d).
Proof.
  revert d. induction cs as [|c cs IH]; intros d H; [exact H|].
  apply IH. now constructor.
Qed.

(** Two sets of 100kg x 5 tie for the best estimate and [prs] prints both:
    the query has no tie-break. *)
Lemma prs_reports_each_tied_set :
  let d :=
    run [AddExercise (mk_add_exercise_args "Squat" None None);
         Log (mk_log_args "Squat" 100 5 "kg" None None (mkdate 2024 3 5)
                (mkdatetime (mkdate 2024 3 5) 9 0 0) None);
         Log (mk_log_args "Squat" 100 5 "kg" None None (mkdate 2024 3 5)
                (mkdatetime (mkdate 2024 3 5) 9 10 0) None)] empty_db in
  exercise_named "Squat" d = Some (mkExercise 1 "Squat" None None) /\
  List.length (sets_of 1 d) = 2%nat /\
  exists rows,
    cmd_prs d = (Ok rows, d) /\
    List.length (prs_for "Squat" rows) = 2%nat /\
    List.length (prs_for "Squat" rows) <> 1%nat.
Proof.
  cbv zeta. split; [reflexivity|]. split; [reflexivity|].
  eexists. split; [reflexivity|]. split; [reflexivity|]. discriminate.
Qed.

(** C5 fails on the code: with sets 100kg x 1 and 96kg x 2 of one exercise
    [prs] prints the 100kg x 1 set alone, shown with an e1RM of 103.33.
    By [epley_e1rm] that set's e1RM is 100, below the 102.4 of the
    96kg x 2 set: the SQL ranks every set by [weight_kg * (1 + reps/30)]
    and has no case for [reps <= 1]. *)
Theorem prs_reports_set_below_max_e1rm :
  let d :=
    run [AddExercise (mk_add_exercise_args "Squat" None None);
         Log (mk_log_args "Squat" 100 1 "kg" None None (mkdate 2024 3 5)
                (mkdatetime (mkdate 2024 3 5) 9 0 0) None);
         Log (mk_log_args "Squat" 96 2 "kg" None None (mkdate 2024 3 5)
                (mkdatetime (mkdate 2024 3 5) 9 10 0) None)] empty_db in
  exists s1 s2 row,
    exercises d = [mkExercise 1 "Squat" None None] /\
    sets_of 1 d = [s1; s2] /\
    (weight_kg s1 == 100)%Q /\ reps s1 = 1 /\
    (weight_kg s2 == 96)%Q /\ reps s2 = 2 /\
    (e1rm_of s1 == 100)%Q /\ (e1rm_of s2 == 1024 # 10)%Q /\
    (e1rm_of s1 < e1rm_of s2)%Q /\
    cmd_prs d = (Ok [row], d) /\
    row = pr_row_of (mkExercise 1 "Squat" None None, s1) /\
    (pr_e1rm row == 3100 # 30)%Q.
Proof.
  cbv zeta. eexists _, _, _.
  repeat (split; [reflexivity|]). reflexivity.
Qed.


(* ------------------------------------------------------------------ *)
(** ** Per-exercise summary *)

(** Where the summary and [epley_e1rm] agree: exercises whose sets all have
    more than one rep. *)
Lemma summary_best_e1rm_multi_rep (d : db) (e : Exercise) (l : Z) :
  In e (exercises d) ->
  (forall s, In s (sets_of (id e) d) -> 1 < reps s) ->
  exists lines line,
    cmd_summary (mk_summary_args None l) d = (Ok (AllExercises lines), d) /\
    In line lines /\ sl_name line = name e /\
    sl_best_e1rm line
    = py_or_float (sql_max (map e1rm_of (sets_of (id e) d))).
Proof.
  intros He Hr. eexists _, _. split; [apply cmd_summary_global_eq|].
  split; [|split].
  - apply in_map. unfold summary_query.
    apply (Permutation_in _ (Permutation_sym (sort_by_perm _ _))).
    apply in_map. exact He.
  - reflexivity.
  - cbn [summary_line_of sl_best_e1rm sr_best_e1rm]. f_equal. f_equal.
    apply map_ext_in. intros s Hs. now apply rank_is_e1rm, Hr.
Qed.

(** C1 fails on the code: after one set of 100kg x 1 the global summary
    shows a best e1RM of 103.33 (the SQL applies the Epley factor to every
    rep count), while [epley_e1rm] of the only stored set is 100, which is
    also what the single-exercise summary of the same command shows. *)
Theorem summary_best_e1rm_single_rep :
  let d :=
    run [AddExercise (mk_add_exercise_args "Bench Press" None None);
         Log (mk_log_args "Bench Press" 100 1 "kg" None None (mkdate 2024 3 5)
                (mkdatetime (mkdate 2024 3 5) 9 0 0) None)] empty_db in
  exists line rows from,
    cmd_summary (mk_summary_args None 10) d = (Ok (AllExercises [line]), d) /\
    sl_name line = "Bench Press"%string /\ sl_sets line = 1 /\
    (sl_best_e1rm line == 3100 # 30)%Q /\
    map e1rm_of (sets_of 1 d) = [100%Q] /\
    ~ (sl_best_e1rm line == 100)%Q /\
    cmd_summary (mk_summary_args (Some "Bench Press"%string) 10) d
    = (Ok (OneExercise (RecentSets rows 100 from)), d).
Proof.
  cbv zeta. eexists _, _, _.
  split; [reflexivity|]. split; [reflexivity|]. split; [reflexivity|].
  split; [reflexivity|]. split; [reflexivity|]. split; [|reflexivity].
  vm_compute. discriminate.
Qed.

(* ------------------------------------------------------------------ *)
(** ** Logging: argument checks and the explicit workout id *)

Lemma unit_check_true a :
  lower (la_unit a) = "kg"%string \/ lower (la_unit a) = "lb"%string ->
  (String.eqb (lower (la_unit a)) "kg" || String.eqb (lower (la_unit a)) "lb")
  = true.
Proof. intros [H|H]; rewrite H; reflexivity. Qed.

Section LogArgumentFacts.

Variable strptime_date : string -> option date.
Variable strptime_time : string -> option (Z * Z).
Variable now_date : datetime.
Variable now_ts : datetime.

(** Once the unit is valid and date and time are known, [cmd_log_argv] is
    [cmd_log] on them. *)
Lemma cmd_log_argv_eq (a : log_argv) (d0 : db) :
  cmd_log_argv strptime_date strptime_time now_date now_ts a d0 =
  if negb (String.eqb (lower (lv_unit a)) "kg"
           || String.eqb (lower (lv_unit a)) "lb")
  then (Raise (SystemExit "--unit must be 'kg' or 'lb'"), d0)
  else
    match
      (if truthy (lv_date a)
       then match option_map strptime_date (lv_date a) with
            | Some (Some d) => Ok d
            | _ => Raise (SystemExit "--date must be YYYY-MM-DD")
            end
       else Ok (dt_date now_date))
    with
    | Raise e => (Raise e, d0)
    | Ok d =>
        match
          (if truthy (lv_time a)
           then match option_map strptime_time (lv_time a) with
                | Some (Some t) => Ok (datetime_combine d t)
                | _ => Raise (SystemExit "--time must be HH:MM (24h)")
                end
           else Ok now_ts)
        with
        | Raise e => (Raise e, d0)
        | Ok ts => cmd_log (parsed a d ts) d0
        end
    end.
Proof.
  unfold cmd_log_argv, cmd_log, parsed.
  cbn [la_unit la_date la_ts la_weight la_reps la_exercise la_workout_id
       la_rpe la_notes].
  destruct (negb _) eqn:Hu; [reflexivity|].
  destruct (if truthy (lv_date a) then _ else _) as [d|e]; [|reflexivity].
  destruct (if truthy (lv_time a) then _ else _) as [ts|e]; reflexivity.
Qed.

(** X1: [cmd_log] checks its arguments in the order unit, [--date],
    [--time], rep count, all before it opens the store; the first check
    that fails decides the [SystemExit], and the store is left as it was.
    With all four passed, the command is [cmd_log] on the parsed date and
    time, a missing or empty [--date] or [--time] being read off the
    clock. *)
Theorem log_rejects_bad_arguments (a : log_argv) (d0 : db) :
  let outcome := cmd_log_argv strptime_date strptime_time now_date now_ts a d0 in
  let unit_ok :=
    lower (lv_unit a) = "kg"%string \/ lower (lv_unit a) = "lb"%string in
  let date_is dt :=
    (truthy (lv_date a) = false /\ dt = dt_date now_date) \/
    (exists s, lv_date a = Some s /\ s <> ""%string /\
               strptime_date s = Some dt) in
  let time_is dt ts :=
    (truthy (lv_time a) = false /\ ts = now_ts) \/
    (exists s t, lv_time a = Some s /\ s <> ""%string /\
                 strptime_time s = Some t /\ ts = datetime_combine dt t) in
  (~ unit_ok -> outcome = (Raise (SystemExit "--unit must be 'kg' or 'lb'"), d0)) /\
  (unit_ok ->
   forall s, lv_date a = Some s -> s <> ""%string ->
             strptime_date s = None ->
   outcome = (Raise (SystemExit "--date must be YYYY-MM-DD"), d0)) /\
  (unit_ok -> forall dt, date_is dt ->
   forall s, lv_time a = Some s -> s <> ""%string ->
             strptime_time s = None ->
   outcome = (Raise (SystemExit "--time must be HH:MM (24h)"), d0)) /\
  (unit_ok -> forall dt ts, date_is dt -> time_is dt ts ->
   (lv_reps a <= 0 -> outcome = (Raise (SystemExit "--reps must be > 0"), d0)) /\
   outcome = cmd_log (parsed a dt ts) d0).
Proof.
  intros outcome unit_ok date_is time_is. subst outcome.
  rewrite cmd_log_argv_eq.
  assert (Hunit : unit_ok ->
            negb (String.eqb (lower (lv_unit a)) "kg"
                  || String.eqb (lower (lv_unit a)) "lb") = false).
  { intros [H|H]; rewrite H; reflexivity. }
  assert (Hdate : forall dt, date_is dt ->
            (if truthy (lv_date a)
             then match option_map strptime_date (lv_date a) with
                  | Some (Some d) => Ok d
                  | _ => Raise (SystemExit "--date must be YYYY-MM-DD")
                  end
             else Ok (dt_date now_date)) = Ok dt).
  { intros dt [[H ->]|(s & Hs & Hne & Hp)]; [now rewrite H|].
    rewrite Hs. destruct s; [congruence|]. cbn. now rewrite Hp. }
  assert (Htime : forall dt ts, time_is dt ts ->
            (if truthy (lv_time a)
             then match option_map strptime_time (lv_time a) with
                  | Some (Some t) => Ok (datetime_combine dt t)
                  | _ => Raise (SystemExit "--time must be HH:MM (24h)")
                  end
             else Ok now_ts) = Ok ts).
  { intros dt ts [[H ->]|(s & t & Hs & Hne & Hp & ->)]; [now rewrite H|].
    rewrite Hs. destruct s; [congruence|]. cbn. now rewrite Hp. }
  split; [|split; [|split]].
  - intros Hn.
    destruct (String.eqb (lower (lv_unit a)) "kg") eqn:E1.
    { apply String.eqb_eq in E1. exfalso. apply Hn. now left. }
    destruct (String.eqb (lower (lv_unit a)) "lb") eqn:E2.
    { apply String.eqb_eq in E2. exfalso. apply Hn. now right. }
    reflexivity.
  - intros Hu s Hs Hne Hp. rewrite (Hunit Hu), Hs.
    destruct s; [congruence|]. cbn. now rewrite Hp.
  - intros Hu dt Hd s Hs Hne Hp. rewrite (Hunit Hu), (Hdate dt Hd), Hs.
    destruct s; [congruence|]. cbn. now rewrite Hp.
  - intros Hu dt ts Hd Ht. rewrite (Hunit Hu), (Hdate dt Hd), (Htime dt ts Ht).
    split; [|reflexivity].
    intros Hr. rewrite cmd_log_eq. cbn [parsed la_unit la_reps].
    rewrite (Hunit Hu). apply Z.leb_le in Hr. now rewrite Hr.
Qed.

End LogArgumentFacts.

Lemma log_rejects_bad_arguments_witness :
  let strptime_date s :=
    if String.eqb s "2024-03-05" then Some (mkdate 2024 3 5) else None in
  let strptime_time s :=
    if String.eqb s "09:30" then Some (9, 30) else None in
  let now := mkdatetime (mkdate 2024 3 6) 18 0 0 in
  let outcome := cmd_log_argv strptime_date strptime_time now now in
  let args u dt tm r :=
    mk_log_argv "Squat" 100 r u None None dt tm None in
  outcome (args "stone" (Some "yesterday") (Some "9h") 0)%string empty_db
  = (Raise (SystemExit "--unit must be 'kg' or 'lb'"), empty_db) /\
  outcome (args "kg" (Some "yesterday") (Some "9h") 0)%string empty_db
  = (Raise (SystemExit "--date must be YYYY-MM-DD"), empty_db) /\
  outcome (args "kg" (Some "2024-03-05") (Some "9h") 0)%string empty_db
  = (Raise (SystemExit "--time must be HH:MM (24h)"), empty_db) /\
  outcome (args "kg" (Some "2024-03-05") None 0)%string empty_db
  = (Raise (SystemExit "--reps must be > 0"), empty_db).
Proof.
  intros strptime_date strptime_time now outcome args.
  split; [|split; [|split]].
  - apply (proj1 (log_rejects_bad_arguments strptime_date strptime_time now now
                    (args "stone" (Some "yesterday") (Some "9h") 0)%string
                    empty_db)).
    simpl. intros [H|H]; discriminate H.
  - apply (proj1 (proj2 (log_rejects_bad_arguments strptime_date strptime_time
                           now now
                           (args "kg" (Some "yesterday") (Some "9h") 0)%string
                           empty_db)))
      with (s := "yesterday"%string).
    + left. reflexivity.
    + reflexivity.
    + discriminate.
    + reflexivity.
  - apply (proj1 (proj2 (proj2 (log_rejects_bad_arguments strptime_date
                                  strptime_time now now
                                  (args "kg" (Some "2024-03-05") (Some "9h") 0)%string
                                  empty_db))))
      with (dt := mkdate 2024 3 5) (s := "9h"%string).
    + left. reflexivity.
    + right. exists "2024-03-05"%string.
      split; [reflexivity|]. split; [discriminate|reflexivity].
    + reflexivity.
    + discriminate.
    + reflexivity.
  - destruct (proj2 (proj2 (proj2 (log_rejects_bad_arguments strptime_date
                                     strptime_time now now
                                     (args "kg" (Some "2024-03-05") None 0)%string
                                     empty_db)))
                (or_introl eq_refl) (mkdate 2024 3 5) now) as [H _].
    + right. exists "2024-03-05"%string.
      split; [reflexivity|]. split; [discriminate|reflexivity].
    + left. split; reflexivity.
    + apply H. simpl. lia.
Defined.

Lemma cmd_log_accepted_eq a d ex :
  log_accepted a d -> exercise_named (la_exercise a) d = Some ex ->
  cmd_log a d =
  if match la_workout_id a with
     | Some i => existsb (fun w => w_id w =? i) (workouts d)
     | None => true
     end
  then (Ok (fst (logged_workouts a d)),
        mkdb (exercises d) (snd (logged_workouts a d))
          (sets d ++ [logged_set a d (fst (logged_workouts a d)) ex]))
  else (Raise (IntegrityError "FOREIGN KEY constraint failed"), d).
Proof.
  intros (Hu & Hr & _) Hex. rewrite cmd_log_eq, Hex, (unit_check_true a Hu).
  cbn [negb]. apply Z.leb_gt in Hr. now rewrite Hr.
Qed.

(** X2: an explicit workout id that no workout has makes [cmd_log] fail on
    the foreign key of the new set row; the [UPDATE] that ran before
    changed nothing, so the store is left as it was and no set is stored. *)
Theorem log_unknown_workout_id (a : log_args) (d : db) (i : Z) :
  log_accepted a d -> la_workout_id a = Some i ->
  ~ In i (map w_id (workouts d)) ->
  cmd_log a d = (Raise (IntegrityError "FOREIGN KEY constraint failed"), d).
Proof.
  intros Hacc Hi Hn.
  destruct (exercise_named (la_exercise a) d) as [ex|] eqn:Hex;
    [|now destruct Hacc as (_ & _ & H)].
  rewrite (cmd_log_accepted_eq a d ex Hacc Hex), Hi.
  destruct (existsb _ _) eqn:E; [|reflexivity].
  apply existsb_id_In in E. contradiction.
Qed.

Lemma log_unknown_workout_id_witness :
  let d := mkdb [mkExercise 1 "Squat" None None] [] [] in
  cmd_log (mk_log_args "Squat" 100 5 "kg" None None (mkdate 2024 3 5)
             (mkdatetime (mkdate 2024 3 5) 9 30 0) (Some 7)) d
  = (Raise (IntegrityError "FOREIGN KEY constraint failed"), d).
Proof.
  intros d. apply (log_unknown_workout_id _ d 7).
  - split; [left; reflexivity|]. split; [simpl; lia|simpl; discriminate].
  - reflexivity.
  - simpl. tauto.
Defined.

Lemma find_touch_other i j f ws :
  (forall w, w_id (f w) = w_id w) -> j <> i ->
  find (fun w => w_id w =? j) (touch i f ws) = find (fun w => w_id w =? j) ws.
Proof.
  intros Hf Hne. rewrite find_touch by exact Hf.
  destruct (find _ ws) as [w|] eqn:E; [|reflexivity]. cbn [option_map].
  apply find_some in E as [_ E]. apply Z.eqb_eq in E.
  replace (w_id w =? i) with false; [reflexivity|].
  symmetry. apply Z.eqb_neq. congruence.
Qed.

(** X3: with the id of an existing workout, [cmd_log] bypasses the grouping
    by date: the set goes to that workout whatever its date, no workout row
    is added, the workout's end becomes the later of its stored end and the
    set's timestamp, and every other workout is untouched. *)
Theorem log_explicit_workout (a : log_args) (d : db) (i : Z) (w : Workout) :
  log_accepted a d -> la_workout_id a = Some i ->
  workout_with_id i d = Some w ->
  exists d' s,
    cmd_log a d = (Ok i, d') /\
    exercises d' = exercises d /\
    sets d' = sets d ++ [s] /\ workout_id s = i /\
    timestamp s = datetime_isoformat (la_ts a) /\
    map w_id (workouts d') = map w_id (workouts d) /\
    workout_with_id i d' =
      Some (set_end_time (later_end (datetime_isoformat (la_ts a)) w) w) /\
    (forall j, j <> i -> workout_with_id j d' = workout_with_id j d).
Proof.
  intros Hacc Hi Hw.
  destruct (exercise_named (la_exercise a) d) as [ex|] eqn:Hex;
    [|now destruct Hacc as (_ & _ & H)].
  rewrite (cmd_log_accepted_eq a d ex Hacc Hex).
  unfold logged_workouts. rewrite Hi. cbn [fst snd].
  assert (E : existsb (fun w => w_id w =? i) (workouts d) = true).
  { unfold workout_with_id in Hw. apply find_some in Hw as [H1 H2].
    apply existsb_exists. eauto. }
  rewrite E. eexists _, _. split; [reflexivity|].
  cbn [exercises workouts sets]. repeat split.
  - now apply touch_ids.
  - unfold workout_with_id in *. cbn [workouts].
    rewrite find_touch by reflexivity. rewrite Hw. cbn [option_map].
    apply find_some in Hw as [_ Hw]. now rewrite Hw.
  - intros j Hj. unfold workout_with_id. cbn [workouts].
    now apply find_touch_other.
Qed.

Lemma log_explicit_workout_witness :
  let d := mkdb [mkExercise 1 "Squat" None None]
             [mkWorkout 4 "2024-03-01" "2024-03-01T10:00:00"
                (Some "2024-03-01T10:30:00"%string) None] [] in
  let a := mk_log_args "Squat" 100 5 "kg" None None (mkdate 2024 3 5)
             (mkdatetime (mkdate 2024 3 5) 9 30 0) (Some 4) in
  exists d' s,
    cmd_log a d = (Ok 4, d') /\ sets d' = sets d ++ [s] /\ workout_id s = 4 /\
    map w_id (workouts d') = [4].
Proof.
  intros d a.
  destruct (log_explicit_workout a d 4
              (mkWorkout 4 "2024-03-01" "2024-03-01T10:00:00"
                 (Some "2024-03-01T10:30:00"%string) None))
    as (d' & s & H1 & _ & H2 & H3 & _ & H4 & _).
  - split; [left; reflexivity|]. split; [simpl; lia|simpl; discriminate].
  - reflexivity.
  - reflexivity.
  - exists d', s. auto.
Defined.

(* ------------------------------------------------------------------ *)
(** ** What the commands never do: delete or rewrite *)

Lemma touch_map {K} (k : Workout -> K) i f ws :
  (forall w, k (f w) = k w) -> map k (touch i f ws) = map k ws.
Proof.
  intros Hf. unfold touch. rewrite map_map. apply map_ext.
  intros w. destruct (w_id w =? i); auto.
Qed.

Lemma logged_workouts_keys {K} (k : Workout -> K) a d :
  (forall en w, k (set_end_time en w) = k w) ->
  map k (snd (logged_workouts a d)) = map k (workouts d) \/
  (la_workout_id a = None /\ workouts_on (la_date a) d = [] /\
   snd (logged_workouts a d) =
     workouts d ++
       [mkWorkout (next_rowid (map w_id (workouts d)))
          (date_isoformat (la_date a)) (datetime_isoformat (la_ts a))
          (Some (datetime_isoformat (la_ts a))) None]).
Proof.
  intros Hk. unfold logged_workouts.
  destruct (la_workout_id a) as [i|]; cbn [snd fst].
  - left. apply touch_map. intros w. apply Hk.
  - destruct (last_by_id (workouts_on (la_date a) d)) as [r|] eqn:Hl; cbn [snd fst].
    + left. destruct (match end_time r with Some _ => _ | None => _ end);
        [apply touch_map; intros w; apply Hk | reflexivity].
    + right. apply last_by_id_None in Hl. auto.
Qed.

Lemma effect_sets d c d' : effect d c d' -> exists ss, sets d' = sets d ++ ss.
Proof.
  intros [c0|a exs Hi Hn|a n p s Hex|a ex Hacc Hex Hin]; cbn [sets];
    try (exists []; now rewrite app_nil_r).
  eexists. reflexivity.
Qed.

(** X4: set rows are immutable and never deleted: after any sequence of
    commands the [sets] table is the table it was, unchanged row for row,
    followed by the rows logged since. *)
Theorem sets_append_only (cs : list command) (d : db) :
  exists ss, sets (run cs d) = sets d ++ ss.
Proof.
  revert d. induction cs as [|c cs IH]; intros d.
  - exists []. cbn. now rewrite app_nil_r.
  - cbn [run fold_left]. fold (run cs (exec c d)).
    destruct (IH (exec c d)) as (s2 & E2).
    destruct (effect_sets _ _ _ (exec_effect c d)) as (s1 & E1).
    exists (s1 ++ s2). now rewrite E2, E1, app_assoc.
Qed.

Lemma effect_keys d c d' :
  effect d c d' ->
  (exists es, map (fun e => (id e, name e)) (exercises d')
              = map (fun e => (id e, name e)) (exercises d) ++ es) /\
  (exists ws, map (fun w => (w_id w, w_date w, start_time w)) (workouts d')
              = map (fun w => (w_id w, w_date w, start_time w)) (workouts d)
                ++ ws).
Proof.
  intros [c0|a exs Hi Hn|a n p s Hex|a ex Hacc Hex Hin];
    cbn [exercises workouts].
  - split; exists []; now rewrite app_nil_r.
  - split; [|exists []; now rewrite app_nil_r].
    exists []. rewrite app_nil_r.
    revert exs Hi Hn. induction (exercises d) as [|e l IH];
      intros [|e' l'] Hi Hn; try discriminate; [reflexivity|].
    cbn [map] in *. injection Hi as Hi1 Hi2. injection Hn as Hn1 Hn2.
    now rewrite Hi1, Hn1, (IH l' Hi2 Hn2).
  - split; [|exists []; now rewrite app_nil_r].
    rewrite map_app. eexists. reflexivity.
  - split; [exists []; now rewrite app_nil_r|].
    destruct (logged_workouts_keys
                (fun w => (w_id w, w_date w, start_time w)) a d)
      as [E|(_ & _ & E)]; [reflexivity| |]; rewrite E.
    + exists []. now rewrite app_nil_r.
    + rewrite map_app. eexists. reflexivity.
Qed.

(** X5: exercises and workouts are never deleted, and a command never
    changes an exercise's id or name or a workout's id, date or start
    time: after any sequence of commands the (id, name) column pairs of
    [exercises] and the (id, date, start_time) triples of [workouts] are
    the ones before, in place, followed by those of the rows added. *)
Theorem rows_keep_their_keys (cs : list command) (d : db) :
  (exists es, map (fun e => (id e, name e)) (exercises (run cs d))
              = map (fun e => (id e, name e)) (exercises d) ++ es) /\
  (exists ws,
     map (fun w => (w_id w, w_date w, start_time w)) (workouts (run cs d))
     = map (fun w => (w_id w, w_date w, start_time w)) (workouts d) ++ ws).
Proof.
  revert d. induction cs as [|c cs IH]; intros d.
  - split; exists []; cbn; now rewrite app_nil_r.
  - cbn [run fold_left]. fold (run cs (exec c d)).
    destruct (IH (exec c d)) as ((e2 & E2) & (w2 & W2)).
    destruct (effect_keys _ _ _ (exec_effect c d)) as ((e1 & E1) & (w1 & W1)).
    split.
    + exists (e1 ++ e2). now rewrite E2, E1, app_assoc.
    + exists (w1 ++ w2). now rewrite W2, W1, app_assoc.
Qed.

(* ------------------------------------------------------------------ *)
(** ** Invariants of the stores the commands build *)

Lemma not_str_gtb_ts_le now e : str_gtb now e = false -> ts_le now e.
Proof.
  unfold str_gtb, ts_le, String.ltb, String.leb.
  rewrite (String.compare_antisym now e).
  destruct (String.compare e now); cbn; intros; (reflexivity || discriminate).
Qed.

Lemma filter_nil_not_In (x : string) (ws : list Workout) :
  filter (fun w => String.eqb (w_date w) x) ws = [] ->
  ~ In x (map w_date ws).
Proof.
  intros H Hin. apply in_map_iff in Hin as (w & E & Hw).
  assert (Hf : In w (filter (fun w => String.eqb (w_date w) x) ws)).
  { apply filter_In. split; [exact Hw|]. now apply String.eqb_eq. }
  rewrite H in Hf. destruct Hf.
Qed.

(** X6: one session per calendar day.  In every store built by the
    commands no two workouts have the same date. *)
Theorem reachable_one_workout_per_date (d : db) :
  reachable d -> NoDup (map w_date (workouts d)).
Proof.
  induction 1 as [|d c H IH]; [constructor|].
  destruct (exec_effect c d) as [c0|a exs Hi Hn|a n p s Hex|a ex Hacc Hex Hin];
    cbn [workouts]; auto.
  destruct (logged_workouts_keys w_date a d) as [E|(_ & Hon & E)];
    [reflexivity| |]; rewrite E; [exact IH|].
  rewrite map_app. apply NoDup_snoc; [exact IH|].
  cbn [map w_date]. now apply filter_nil_not_In.
Qed.

Lemma reachable_one_workout_per_date_witness :
  NoDup (map w_date (workouts
    (run [AddExercise (mk_add_exercise_args "Squat" None None);
          Log (mk_log_args "Squat" 100 5 "kg" None None (mkdate 2024 3 5)
                 (mkdatetime (mkdate 2024 3 5) 9 0 0) None);
          Log (mk_log_args "Squat" 100 5 "kg" None None (mkdate 2024 3 5)
                 (mkdatetime (mkdate 2024 3 5) 9 10 0) None)] empty_db))).
Proof.
  apply reachable_one_workout_per_date.
  apply reachable_exec, reachable_exec, reachable_exec, reachable_empty.
Defined.

(** X7: set ids are never reused.  In every store built by the commands
    the ids of the set rows are pairwise different. *)
Theorem reachable_set_ids (d : db) :
  reachable d -> NoDup (map s_id (sets d)).
Proof.
  induction 1 as [|d c H IH]; [constructor|].
  destruct (exec_effect c d) as [c0|a exs Hi Hn|a n p s Hex|a ex Hacc Hex Hin];
    cbn [sets]; auto.
  rewrite map_app. apply NoDup_snoc; [exact IH|]. apply next_rowid_fresh.
Qed.

Lemma reachable_set_ids_witness :
  NoDup (map s_id (sets
    (run [AddExercise (mk_add_exercise_args "Squat" None None);
          Log (mk_log_args "Squat" 100 5 "kg" None None (mkdate 2024 3 5)
                 (mkdatetime (mkdate 2024 3 5) 9 0 0) None);
          Log (mk_log_args "Squat" 100 5 "kg" None None (mkdate 2024 3 5)
                 (mkdatetime (mkdate 2024 3 5) 9 10 0) None)] empty_db))).
Proof.
  apply reachable_set_ids.
  apply reachable_exec, reachable_exec, reachable_exec, reachable_empty.
Defined.

Lemma In_touch i f ws w' :
  In w' (touch i f ws) ->
  In w' ws \/ exists w, In w ws /\ w_id w = i /\ w' = f w.
Proof.
  unfold touch. intros H. apply in_map_iff in H as (w & E & Hw).
  destruct (w_id w =? i) eqn:Ei.
  - right. exists w. apply Z.eqb_eq in Ei. auto.
  - left. now subst.
Qed.

(** X8: in every store built by the commands each workout has an end
    timestamp, and it is not earlier than its start timestamp (in the
    order the code compares timestamps in). *)
Theorem reachable_workout_span (d : db) :
  reachable d ->
  forall w, In w (workouts d) ->
  exists e, end_time w = Some e /\ ts_le (start_time w) e.
Proof.
  induction 1 as [|d c H IH]; [intros w []|].
  pose proof (ok_workout_ids _ (reachable_db_ok _ H)) as Hn.
  destruct (exec_effect c d) as [c0|a exs Hi Hn'|a n p s Hex|a ex Hacc Hex Hin];
    cbn [workouts]; auto.
  intros w'. unfold logged_workouts.
  destruct (la_workout_id a) as [i|]; cbn [snd].
  - intros Hw. apply In_touch in Hw as [Hw|(w & Hw & _ & ->)]; [auto|].
    destruct (IH w Hw) as (e & He & Hle).
    unfold later_end. rewrite He. cbn [end_time set_end_time start_time].
    destruct (str_gtb _ e) eqn:G; eexists; split; try reflexivity; auto.
    eapply ts_le_trans; [exact Hle|]. now apply str_gtb_ts_le.
  - destruct (last_by_id (workouts_on (la_date a) d)) as [r|] eqn:Hl; cbn [snd].
    + assert (Hr : In r (workouts d)).
      { apply last_by_id_In in Hl. unfold workouts_on in Hl.
        apply filter_In in Hl. tauto. }
      destruct (IH r Hr) as (e & He & Hle). rewrite He.
      destruct (str_gtb _ e) eqn:G; [|auto].
      intros Hw. apply In_touch in Hw as [Hw|(w & Hw & Ei & ->)]; [auto|].
      assert (w = r) as -> by (apply (NoDup_map_eq w_id (workouts d)); auto).
      cbn [end_time set_end_time start_time]. eexists. split; [reflexivity|].
      eapply ts_le_trans; [exact Hle|]. now apply str_gtb_ts_le.
    + intros Hw. apply in_app_iff in Hw as [Hw|[<-|[]]]; [auto|].
      cbn [end_time start_time]. eexists. split; [reflexivity|].
      apply ts_le_refl.
Qed.

Lemma reachable_workout_span_witness :
  let d :=
    run [AddExercise (mk_add_exercise_args "Squat" None None);
         Log (mk_log_args "Squat" 100 5 "kg" None None (mkdate 2024 3 5)
                (mkdatetime (mkdate 2024 3 5) 9 0 0) None);
         Log (mk_log_args "Squat" 100 5 "kg" None None (mkdate 2024 3 5)
                (mkdatetime (mkdate 2024 3 5) 8 0 0) None)] empty_db in
  Forall (fun w => exists e, end_time w = Some e /\ ts_le (start_time w) e)
         (workouts d).
Proof.
  intros d. apply Forall_forall. apply reachable_workout_span.
  apply reachable_exec, reachable_exec, reachable_exec, reachable_empty.
Defined.

Lemma In_find_id i ws :
  In i (map w_id ws) -> exists w, find (fun w => w_id w =? i) ws = Some w.
Proof.
  intros H. destruct (find (fun w => w_id w =? i) ws) as [w|] eqn:E; [eauto|].
  apply in_map_iff in H as (w & Hi & Hw).
  pose proof (find_none _ _ E w Hw) as Hf. cbn in Hf.
  apply Z.eqb_neq in Hf. contradiction.
Qed.

Lemma find_id_fresh i ws w :
  ~ In i (map w_id ws) -> w_id w = i ->
  find (fun w => w_id w =? i) (ws ++ [w]) = Some w.
Proof.
  intros Hn Hi. induction ws as [|x ws IH]; cbn [app find].
  - rewrite Hi, Z.eqb_refl. reflexivity.
  - destruct (w_id x =? i) eqn:E.
    + apply Z.eqb_eq in E. exfalso. apply Hn. left. exact E.
    + apply IH. intros H. apply Hn. now right.
Qed.

(** The workout a logged set goes to ends no earlier than the set. *)
Lemma logged_workouts_cover a d :
  NoDup (map w_id (workouts d)) ->
  In (fst (logged_workouts a d)) (map w_id (snd (logged_workouts a d))) ->
  exists w e,
    find (fun w => w_id w =? fst (logged_workouts a d))
         (snd (logged_workouts a d)) = Some w /\
    end_time w = Some e /\ ts_le (datetime_isoformat (la_ts a)) e.
Proof.
  intros Hn. unfold logged_workouts.
  destruct (la_workout_id a) as [i|]; cbn [fst snd].
  - rewrite touch_ids by reflexivity. intros Hin.
    destruct (In_find_id _ _ Hin) as (w0 & Hf).
    rewrite find_touch by reflexivity. rewrite Hf. cbn [option_map].
    apply find_some in Hf as [_ Hf]. rewrite Hf.
    unfold later_end. cbn [end_time set_end_time].
    destruct (end_time w0) as [e|]; [destruct (str_gtb _ e) eqn:G|];
      eexists _, _; split; try reflexivity; split; try reflexivity.
    + apply ts_le_refl.
    + now apply not_str_gtb_ts_le.
    + apply ts_le_refl.
  - destruct (last_by_id (workouts_on (la_date a) d)) as [r|] eqn:Hl;
      cbn [fst snd].
    + assert (Hr : In r (workouts d)).
      { apply last_by_id_In in Hl. unfold workouts_on in Hl.
        apply filter_In in Hl. tauto. }
      destruct (In_find_id (w_id r) (workouts d) (in_map _ _ _ Hr)) as (w0 & Hf).
      assert (w0 = r) as ->.
      { apply find_some in Hf as [H1 H2]. apply Z.eqb_eq in H2.
        apply (NoDup_map_eq w_id (workouts d)); auto. }
      intros _.
      destruct (end_time r) as [e|] eqn:He; [destruct (str_gtb _ e) eqn:G|].
      * rewrite find_touch by reflexivity. rewrite Hf. cbn [option_map].
        rewrite Z.eqb_refl. eexists _, _. split; [reflexivity|].
        split; [reflexivity|apply ts_le_refl].
      * exists r, e. split; [exact Hf|]. split; [exact He|].
        now apply not_str_gtb_ts_le.
      * rewrite find_touch by reflexivity. rewrite Hf. cbn [option_map].
        rewrite Z.eqb_refl. eexists _, _. split; [reflexivity|].
        split; [reflexivity|apply ts_le_refl].
    + intros _. rewrite find_id_fresh; [|apply next_rowid_fresh|reflexivity].
      eexists _, _. split; [reflexivity|]. split; [reflexivity|apply ts_le_refl].
Qed.

(** X9: in every store built by the commands each set belongs to a stored
    workout whose end timestamp is not earlier than the set's timestamp. *)
Theorem reachable_sets_within_workout (d : db) :
  reachable d ->
  forall s, In s (sets d) ->
  exists w e,
    workout_with_id (workout_id s) d = Some w /\
    end_time w = Some e /\ ts_le (timestamp s) e.
Proof.
  induction 1 as [|d c H IH]; [intros s []|].
  pose proof (ok_workout_ids _ (reachable_db_ok _ H)) as Hn.
  pose proof (exec_effect c d) as E.
  pose proof (fun i w e => effect_end_time d c (exec c d) i w e E Hn) as Hmono.
  destruct E as [c0|a exs Hi Hn'|a n p s0 Hex|a ex Hacc Hex Hin];
    cbn [sets]; auto.
  intros s Hs. apply in_app_iff in Hs as [Hs|[<-|[]]].
  - destruct (IH s Hs) as (w & e & Hw & He & Hle).
    destruct (Hmono _ w e Hw He) as (w' & e' & Hw' & He' & Hle').
    exists w', e'. eauto using ts_le_trans.
  - cbn [workout_id timestamp logged_set]. unfold workout_with_id. cbn [workouts].
    now apply logged_workouts_cover.
Qed.

Lemma reachable_sets_within_workout_witness :
  let d :=
    run [AddExercise (mk_add_exercise_args "Squat" None None);
         Log (mk_log_args "Squat" 100 5 "kg" None None (mkdate 2024 3 5)
                (mkdatetime (mkdate 2024 3 5) 9 0 0) None);
         Log (mk_log_args "Squat" 100 5 "kg" None None (mkdate 2024 3 5)
                (mkdatetime (mkdate 2024 3 5) 8 0 0) None)] empty_db in
  Forall (fun s => exists w e,
            workout_with_id (workout_id s) d = Some w /\
            end_time w = Some e /\ ts_le (timestamp s) e)
         (sets d).
Proof.
  intros d. apply Forall_forall. apply reachable_sets_within_workout.
  apply reachable_exec, reachable_exec, reachable_exec, reachable_empty.
Defined.

(* ------------------------------------------------------------------ *)
(** ** Adding exercises *)

Lemma find_name_snoc n l e :
  find (fun e => String.eqb (name e) n) l = None -> name e = n ->
  find (fun e => String.eqb (name e) n) (l ++ [e]) = Some e.
Proof.
  intros Hn He. induction l as [|x l IH]; cbn [app find] in *.
  - now rewrite He, String.eqb_refl.
  - destruct (String.eqb (name x) n); [discriminate|auto].
Qed.

Lemma find_name_snoc_other m l e :
  name e <> m ->
  find (fun e => String.eqb (name e) m) (l ++ [e])
  = find (fun e => String.eqb (name e) m) l.
Proof.
  intros He. induction l as [|x l IH]; cbn [app find].
  - apply String.eqb_neq in He. now rewrite He.
  - destruct (String.eqb (name x) m); auto.
Qed.

(** X10: adding an exercise under a name that is not stored inserts one
    row with a fresh id and the attributes given, commits it, and returns
    that row: looking the name up afterwards gives back the record
    returned, every other name looks up as before, and workouts and sets
    are untouched. *)
Theorem add_exercise_new (n : string) (p s : option string) (c : conn) :
  exercise_named n (current c) = None ->
  exists r c',
    add_or_update_exercise n p s c = (Ok r, c') /\
    r = mkExercise (next_rowid (map id (exercises (current c)))) n p s /\
    ~ In (id r) (map id (exercises (current c))) /\
    committed c' = current c' /\
    find_exercise_by_name n c' = (Ok (Some r), c') /\
    (forall m, m <> n ->
       exercise_named m (current c') = exercise_named m (current c)) /\
    exercises (current c') = exercises (current c) ++ [r] /\
    workouts (current c') = workouts (current c) /\
    sets (current c') = sets (current c).
Proof.
  intros Hex. rewrite add_or_update_exercise_eq. cbv zeta. rewrite Hex.
  eexists _, _. split; [reflexivity|]. split; [reflexivity|].
  cbn [id current committed exercises workouts sets]. repeat split.
  - apply next_rowid_fresh.
  - unfold find_exercise_by_name, query. cbn [current exercises].
    rewrite find_name_snoc; [reflexivity|exact Hex|reflexivity].
  - intros m Hm. unfold exercise_named. cbn [exercises].
    apply find_name_snoc_other. cbn [name]. congruence.
Qed.

Lemma add_exercise_new_witness :
  let c := mkconn empty_db empty_db in
  exists r c',
    add_or_update_exercise "Squat" (Some "Quads"%string) None c = (Ok r, c') /\
    find_exercise_by_name "Squat" c' = (Ok (Some r), c').
Proof.
  intros c.
  destruct (add_exercise_new "Squat" (Some "Quads"%string) None c eq_refl)
    as (r & c' & H1 & _ & _ & _ & H2 & _).
  exists r, c'. split; [exact H1|exact H2].
Defined.

Lemma merged_merged p s e : merged p s (merged p s e) = merged p s e.
Proof. unfold merged. cbn. now destruct p, s. Qed.

Lemma update_twice p s i l :
  map (fun e => if id e =? i then merged p s e else e)
    (map (fun e => if id e =? i then merged p s e else e) l)
  = map (fun e => if id e =? i then merged p s e else e) l.
Proof.
  rewrite map_map. apply map_ext. intros e.
  destruct (id e =? i) eqn:E; cbn [id merged]; rewrite E; [|reflexivity].
  apply merged_merged.
Qed.

Lemma update_fresh p s i l :
  ~ In i (map id l) ->
  map (fun e => if id e =? i then merged p s e else e) l = l.
Proof.
  intros Hn. induction l as [|e l IH]; cbn [map]; [reflexivity|].
  rewrite IH by (intros H; apply Hn; now right).
  replace (id e =? i) with false; [reflexivity|].
  symmetry. apply Z.eqb_neq. intros E. apply Hn. now left.
Qed.

Lemma add_or_update_exercise_merged n p s c :
  add_or_update_exercise n p s c =
  match exercise_named n (current c) with
  | Some ex =>
      (Ok (mkExercise (id ex) n (py_or_str p (primary_muscle ex))
             (py_or_str s (secondary_muscles ex))),
       let d' :=
         mkdb (map (fun e => if id e =? id ex then merged p s e else e)
                 (exercises (current c)))
           (workouts (current c)) (sets (current c)) in
       mkconn d' d')
  | None =>
      let i := next_rowid (map id (exercises (current c))) in
      let d' := mkdb (exercises (current c) ++ [mkExercise i n p s])
                  (workouts (current c)) (sets (current c)) in
      (Ok (mkExercise i n p s), mkconn d' d')
  end.
Proof. exact (add_or_update_exercise_eq n p s c). Qed.

(** X11: [add-exercise] is idempotent.  Running it a second time with the
    same arguments leaves the store exactly as the first run left it, and
    both runs succeed and report the same exercise id. *)
Theorem add_exercise_idempotent (a : add_exercise_args) (d : db) :
  exists r1 r2 d1,
    cmd_add_exercise a d = (Ok r1, d1) /\
    cmd_add_exercise a d1 = (Ok r2, d1) /\
    id r1 = id r2.
Proof.
  rewrite cmd_add_exercise_eq. cbv zeta.
  set (n := strip (ae_name a)).
  set (p := if truthy (ae_primary a) then _ else _).
  set (s := if truthy (ae_secondary a) then _ else _).
  rewrite add_or_update_exercise_merged. cbn [current]. cbv zeta.
  destruct (exercise_named n d) as [ex|] eqn:Hex.
  - eexists _, _, _. split; [reflexivity|].
    rewrite cmd_add_exercise_eq. cbv zeta. fold n p s.
    rewrite add_or_update_exercise_merged. cbn [current]. cbv zeta.
    pose proof (find_after_update n p s ex _ Hex) as Hf.
    unfold exercise_named at 1. cbn [exercises]. rewrite Hf.
    cbn [id merged exercises workouts sets]. rewrite update_twice.
    split; reflexivity.
  - eexists _, _, _. split; [reflexivity|].
    rewrite cmd_add_exercise_eq. cbv zeta. fold n p s.
    rewrite add_or_update_exercise_merged. cbn [current]. cbv zeta.
    unfold exercise_named at 1. cbn [exercises].
    rewrite find_name_snoc; [|exact Hex|reflexivity].
    cbn [id exercises workouts sets]. rewrite map_app.
    rewrite update_fresh by apply next_rowid_fresh.
    cbn [map id]. rewrite Z.eqb_refl.
    replace (merged p s _) with
      (mkExercise (next_rowid (map id (exercises d))) n p s)
      by (unfold merged; cbn; now destruct p, s).
    split; reflexivity.
Qed.

(* ------------------------------------------------------------------ *)
(** ** The global summary *)

Lemma nodup_length_le (l : list Z) :
  (List.length (nodup Z.eq_dec l) <= List.length l)%nat.
Proof.
  induction l as [|x l IH]; cbn [nodup List.length]; [lia|].
  destruct (in_dec Z.eq_dec x l); cbn [List.length]; lia.
Qed.

Lemma summary_lines_eq l d :
  cmd_summary (mk_summary_args None l) d
  = (Ok (AllExercises
           (map summary_line_of
              (sort_by (fun a b => String.leb (sr_name a) (sr_name b))
                 (map (fun e =>
                         mk_summary_row (name e)
                           (count (sets_of (id e) d))
                           (count_distinct (map workout_id (sets_of (id e) d)))
                           (sql_sum (map (fun s => (weight_kg s * inject_Z (reps s))%Q)
                                       (sets_of (id e) d)))
                           (sql_max (map (fun s => sql_e1rm (weight_kg s) (reps s))
                                       (sets_of (id e) d))))
                    (exercises d))))), d).
Proof. reflexivity. Qed.

(** X12: the global summary has exactly one line per stored exercise,
    whether or not the exercise has sets.  The line of an exercise shows
    the number of its sets and a session count between 0 and that number;
    an exercise without sets is shown with all four figures zero. *)
Theorem summary_lists_every_exercise (l : Z) (d : db) :
  exists lines,
    cmd_summary (mk_summary_args None l) d = (Ok (AllExercises lines), d) /\
    Permutation (map sl_name lines) (map name (exercises d)) /\
    forall e, In e (exercises d) ->
      exists line,
        In line lines /\ sl_name line = name e /\
        sl_sets line = Z.of_nat (List.length (sets_of (id e) d)) /\
        0 <= sl_sessions line <= sl_sets line /\
        (sets_of (id e) d = [] ->
         line = mk_summary_line (name e) 0 0 0 0).
Proof.
  eexists. split; [apply summary_lines_eq|]. split.
  - rewrite map_map.
    rewrite (Permutation_map _ (sort_by_perm _ _)).
    rewrite map_map. reflexivity.
  - intros e He. eexists. split.
    + apply in_map.
      apply (Permutation_in _ (Permutation_sym (sort_by_perm _ _))).
      apply in_map. exact He.
    + cbn [summary_line_of sl_name sl_sets sl_sessions sr_name sr_sets
             sr_sessions sr_volume_kg sr_best_e1rm].
      split; [reflexivity|]. split; [reflexivity|]. split.
      * unfold count, count_distinct.
        pose proof (nodup_length_le (map workout_id (sets_of (id e) d))) as H.
        rewrite length_map in H. lia.
      * intros ->. reflexivity.
Qed.

Lemma Zsum_perm (l l' : list Z) :
  Permutation l l' -> fold_right Z.add 0 l = fold_right Z.add 0 l'.
Proof.
  induction 1; cbn [fold_right]; lia.
Qed.

Lemma count_one_owner (es : list Exercise) (k : Z) :
  NoDup (map id es) -> In k (map id es) ->
  fold_right Z.add 0 (map (fun e => if k =? id e then 1 else 0) es) = 1.
Proof.
  induction es as [|e es IH]; cbn [map fold_right In]; [tauto|].
  intros Hn Hin. inversion Hn as [|? ? Hx Hn']; subst.
  destruct (k =? id e) eqn:E.
  - apply Z.eqb_eq in E. subst k.
    assert (fold_right Z.add 0 (map (fun e0 => if id e =? id e0 then 1 else 0) es) = 0).
    { clear -Hx. induction es as [|x es IH]; cbn [map fold_right]; [reflexivity|].
      replace (id e =? id x) with false.
      - rewrite IH; [reflexivity|]. intros H. apply Hx. now right.
      - symmetry. apply Z.eqb_neq. intros H. apply Hx. left. now symmetry. }
    lia.
  - apply Z.eqb_neq in E. destruct Hin as [Hin|Hin]; [congruence|].
    rewrite IH; auto.
Qed.

Lemma sets_partition (es : list Exercise) (ss : list SetRow) :
  NoDup (map id es) ->
  (forall s, In s ss -> In (exercise_id s) (map id es)) ->
  fold_right Z.add 0
    (map (fun e =>
            Z.of_nat (List.length
                        (filter (fun s => exercise_id s =? id e) ss))) es)
  = Z.of_nat (List.length ss).
Proof.
  intros Hn. induction ss as [|s ss IH]; intros Hfk.
  - cbn [filter List.length]. clear. induction es as [|e es IH]; cbn [map fold_right]; [reflexivity|].
    rewrite IH. reflexivity.
  - specialize (IH (fun x Hx => Hfk x (or_intror Hx))).
    pose proof (count_one_owner es (exercise_id s) Hn (Hfk s (or_introl eq_refl)))
      as H1.
    assert (Hsplit :
      fold_right Z.add 0
        (map (fun e =>
                Z.of_nat (List.length
                            (filter (fun s0 => exercise_id s0 =? id e) (s :: ss))))
           es)
      = fold_right Z.add 0
          (map (fun e => if exercise_id s =? id e then 1 else 0) es)
        + fold_right Z.add 0
            (map (fun e =>
                    Z.of_nat (List.length
                                (filter (fun s0 => exercise_id s0 =? id e) ss)))
               es)).
    { clear. induction es as [|e es IHe]; cbn [map fold_right]; [reflexivity|].
      rewrite IHe. cbn [filter].
      destruct (exercise_id s =? id e); cbn [List.length]; lia. }
    rewrite Hsplit, H1, IH. cbn [List.length]. lia.
Qed.

(** X13: in a store whose exercise ids are distinct and whose sets refer to
    stored exercises (the schema's keys), every set is counted in exactly
    one line of the global summary: the set counts of the lines add up to
    the number of stored sets. *)
Theorem summary_counts_every_set (l : Z) (d : db) :
  db_ok d ->
  exists lines,
    cmd_summary (mk_summary_args None l) d = (Ok (AllExercises lines), d) /\
    fold_right Z.add 0 (map sl_sets lines) = Z.of_nat (List.length (sets d)).
Proof.
  intros [H1 _ _ H4 _]. eexists. split; [apply summary_lines_eq|].
  rewrite map_map.
  rewrite (Zsum_perm _ _ (Permutation_map _ (sort_by_perm _ _))).
  rewrite map_map. cbn [summary_line_of sl_sets sr_sets].
  unfold count, sets_of. now apply sets_partition.
Qed.

Lemma summary_counts_every_set_witness :
  let d :=
    run [AddExercise (mk_add_exercise_args "Squat" None None);
         AddExercise (mk_add_exercise_args "Bench Press" None None);
         Log (mk_log_args "Squat" 100 5 "kg" None None (mkdate 2024 3 5)
                (mkdatetime (mkdate 2024 3 5) 9 0 0) None);
         Log (mk_log_args "Squat" 100 5 "kg" None None (mkdate 2024 3 5)
                (mkdatetime (mkdate 2024 3 5) 9 10 0) None)] empty_db in
  exists lines,
    cmd_summary (mk_summary_args None 10) d = (Ok (AllExercises lines), d) /\
    fold_right Z.add 0 (map sl_sets lines) = Z.of_nat (List.length (sets d)).
Proof.
  intros d. apply summary_counts_every_set.
  apply reachable_db_ok, reachable_run, reachable_empty.
Defined.

(* ------------------------------------------------------------------ *)
(** ** The summary of one exercise *)

Lemma Qgtb_true x y : Qgtb x y = true <-> (y < x)%Q.
Proof.
  unfold Qgtb. rewrite negb_true_iff. split.
  - intros H. destruct (Qlt_le_dec y x) as [L|L]; [exact L|].
    apply Qle_bool_iff in L. congruence.
  - intros H. destruct (Qle_bool x y) eqn:E; [|reflexivity].
    apply Qle_bool_iff in E. exfalso. apply (Qlt_not_le _ _ H E).
Qed.

Lemma Qgtb_false x y : Qgtb x y = false <-> (x <= y)%Q.
Proof.
  unfold Qgtb. rewrite negb_false_iff. apply Qle_bool_iff.
Qed.

(** What the best-so-far loop has established after the rows in [seen]. *)
Lemma best_loop_spec (rows seen : list SetRow) (acc : Q * option SetRow) :
  (0 <= fst acc)%Q ->
  (forall r, In r seen -> (e1rm_of r <= fst acc)%Q) ->
  (snd acc = None -> fst acc = 0%Q) ->
  (forall r, snd acc = Some r ->
     In r seen /\ fst acc = e1rm_of r /\ (0 < fst acc)%Q) ->
  let res :=
    fold_left
      (fun acc r =>
         let e1 := epley_e1rm (weight_kg r) (reps r) in
         if Qgtb e1 (fst acc) then (e1, Some r) else acc)
      rows acc in
  (0 <= fst res)%Q /\
  (forall r, In r (seen ++ rows) -> (e1rm_of r <= fst res)%Q) /\
  (snd res = None -> fst res = 0%Q) /\
  (forall r, snd res = Some r ->
     In r (seen ++ rows) /\ fst res = e1rm_of r /\ (0 < fst res)%Q).
Proof.
  revert seen acc. induction rows as [|x rows IH]; intros seen acc H0 Hmax Hn Hs.
  - cbn [fold_left]. rewrite app_nil_r. auto.
  - cbn [fold_left]. cbv zeta. fold (e1rm_of x).
    replace (seen ++ x :: rows) with ((seen ++ [x]) ++ rows)
      by (now rewrite <- app_assoc).
    destruct (Qgtb (e1rm_of x) (fst acc)) eqn:G.
    + apply Qgtb_true in G. apply IH; cbn [fst snd].
      * lra.
      * intros r Hr. apply in_app_iff in Hr as [Hr|[<-|[]]];
          [specialize (Hmax r Hr); lra | lra].
      * discriminate.
      * intros r [= <-]. rewrite in_app_iff. cbn [In].
        split; [tauto|]. split; [reflexivity|lra].
    + apply Qgtb_false in G. apply IH; auto.
      * intros r Hr. apply in_app_iff in Hr as [Hr|[<-|[]]]; auto.
      * intros r Hr. destruct (Hs r Hr) as (H1 & H2 & H3).
        rewrite in_app_iff. tauto.
Qed.

(** X14: the "best recent e1RM" of the single-exercise summary starts from
    0.0 and only a strictly larger estimate replaces it.  So the figure is
    never negative and no row shown exceeds it; when a source set is named
    it is one of the rows shown, its estimate is the figure, and the figure
    is positive; when no row has a positive estimate the figure is 0 and no
    source set is named. *)
Theorem best_recent_spec (rows : list SetRow) :
  (0 <= fst (best_recent rows))%Q /\
  (forall r, In r rows -> (e1rm_of r <= fst (best_recent rows))%Q) /\
  (forall r, snd (best_recent rows) = Some r ->
     In r rows /\ fst (best_recent rows) = e1rm_of r /\
     (0 < fst (best_recent rows))%Q) /\
  ((forall r, In r rows -> (e1rm_of r <= 0)%Q) ->
   best_recent rows = (0%Q, None)).
Proof.
  pose proof (best_loop_spec rows [] (0%Q, None)) as H.
  cbv zeta in H. fold (best_recent rows) in H. cbn [fst snd app] in H.
  specialize (H (Qle_refl 0)).
  specialize (H (fun r (F : In r []) => match F with end)).
  specialize (H (fun _ => eq_refl)).
  assert (Hd : forall r : SetRow, @None SetRow = Some r ->
                 In r [] /\ 0%Q = e1rm_of r /\ (0 < 0)%Q) by discriminate.
  destruct (H Hd) as (H0 & Hmax & Hn & Hs). clear H Hd.
  split; [exact H0|]. split; [exact Hmax|]. split; [exact Hs|].
  intros Hall. destruct (best_recent rows) as [b [r|]] eqn:E; cbn [fst snd] in *.
  - destruct (Hs r eq_refl) as (Hin & Hb & Hpos).
    specialize (Hall r Hin). rewrite Hb in Hpos.
    exfalso. exact (Qlt_not_le _ _ Hpos Hall).
  - now rewrite (Hn eq_refl).
Qed.

Lemma best_recent_spec_witness :
  let r := mkSet 1 1 1 "2024-03-05T09:00:00" (Some (-20)%Q) (Some "kg"%string)
             (-20) 5 None None in
  best_recent [r] = (0%Q, None).
Proof.
  intros r. apply (proj2 (proj2 (proj2 (best_recent_spec [r])))).
  intros x [<-|[]]. vm_compute. discriminate.
Defined.

(** [ORDER BY]: the rows come out in the order asked for. *)
Lemma insert_by_sorted {A} (le : A -> A -> bool) x l :
  (forall a b, le a b = false -> le b a = true) ->
  Sorted (fun a b => le a b = true) l ->
  Sorted (fun a b => le a b = true) (insert_by le x l).
Proof.
  intros Htot. induction l as [|y l IH]; cbn [insert_by]; intros Hs.
  - constructor; constructor.
  - destruct (le x y) eqn:E.
    + constructor; [exact Hs|]. constructor. exact E.
    + inversion Hs as [|? ? Hs' Hd]; subst. constructor; [now apply IH|].
      destruct l as [|z l]; cbn [insert_by].
      * constructor. now apply Htot.
      * destruct (le x z); constructor; [now apply Htot|].
        now inversion Hd.
Qed.

Lemma sort_by_sorted {A} (le : A -> A -> bool) l :
  (forall a b, le a b = false -> le b a = true) ->
  Sorted (fun a b => le a b = true) (sort_by le l).
Proof.
  intros Htot. unfold sort_by. induction l as [|x l IH]; cbn [fold_right].
  - constructor.
  - now apply insert_by_sorted.
Qed.




(* ------------------------------------------------------------------ *)
(** ** Listings ordered by exercise name *)

Lemma Sorted_map {A B} (f : A -> B) (R : B -> B -> Prop) l :
  Sorted (fun a b => R (f a) (f b)) l -> Sorted R (map f l).
Proof.
  induction 1 as [|x l Hs IH Hd]; cbn [map]; constructor; auto.
  destruct Hd; cbn [map]; constructor; auto.
Qed.

Lemma Sorted_impl {A} (R R' : A -> A -> Prop) l :
  (forall a b, R a b -> R' a b) -> Sorted R l -> Sorted R' l.
Proof.
  intros H. induction 1 as [|x l Hs IH Hd]; constructor; auto.
  destruct Hd; constructor; auto.
Qed.

Lemma leb_false_total (a b : string) :
  String.leb a b = false -> String.leb b a = true.
Proof.
  intros H. destruct (String.leb_total a b) as [E|E]; congruence.
Qed.

(** X16: the lines of the global summary and the lines of [prs] come out
    in ascending order of exercise name. *)
Theorem listings_ordered_by_name (l : Z) (d : db) :
  exists lines rows,
    cmd_summary (mk_summary_args None l) d = (Ok (AllExercises lines), d) /\
    cmd_prs d = (Ok rows, d) /\
    Sorted (fun a b => String.leb (sl_name a) (sl_name b) = true) lines /\
    Sorted (fun a b => String.leb (pr_name a) (pr_name b) = true) rows.
Proof.
  eexists _, _. split; [apply cmd_summary_global_eq|].
  split; [apply cmd_prs_eq|]. split.
  - apply Sorted_map. cbn [summary_line_of sl_name]. unfold summary_query.
    apply (sort_by_sorted (fun a b => String.leb (sr_name a) (sr_name b))).
    intros a b. apply leb_false_total.
  - apply Sorted_map. unfold prs_join.
    assert (E : forall p, pr_name (pr_row_of p) = name (fst p))
      by (intros [e s]; reflexivity).
    eapply Sorted_impl;
      [|apply (sort_by_sorted
                 (fun a b => String.leb (name (fst a)) (name (fst b))));
        intros a b; apply leb_false_total].
    intros a b. now rewrite !E.
Qed.

(** X17: [prs] has no line for an exercise without sets, and prints
    nothing for a store without sets. *)
Theorem prs_omits_exercises_without_sets (d : db) :
  db_ok d ->
  exists rows,
    cmd_prs d = (Ok rows, d) /\
    (forall e, In e (exercises d) -> sets_of (id e) d = [] ->
       prs_for (name e) rows = []) /\
    (sets d = [] -> rows = []).
Proof.
  intros Hok. exists (map pr_row_of (prs_join d)).
  split; [apply cmd_prs_eq|]. split.
  - intros e He Hs. rewrite prs_for_map. unfold prs_join.
    apply Permutation_nil.
    rewrite (filter_perm _ _ _ (sort_by_perm _ _)).
    rewrite (prs_rows_of d Hok e (sets d) He (incl_refl _)).
    fold (sets_of (id e) d). rewrite Hs. reflexivity.
  - intros Hs. unfold prs_join. rewrite Hs. reflexivity.
Qed.

Lemma prs_omits_exercises_without_sets_witness :
  let d :=
    run [AddExercise (mk_add_exercise_args "Squat" None None);
         AddExercise (mk_add_exercise_args "Bench Press" None None);
         Log (mk_log_args "Squat" 100 5 "kg" None None (mkdate 2024 3 5)
                (mkdatetime (mkdate 2024 3 5) 9 0 0) None)] empty_db in
  exists rows,
    cmd_prs d = (Ok rows, d) /\
    prs_for "Bench Press" rows = [].
Proof.
  intros d.
  destruct (prs_omits_exercises_without_sets d) as (rows & H1 & H2 & _).
  - apply reachable_db_ok, reachable_run, reachable_empty.
  - exists rows. split; [exact H1|].
    apply (H2 (mkExercise 2 "Bench Press" None None)).
    + simpl. tauto.
    + reflexivity.
Defined.

(* ------------------------------------------------------------------ *)
(** ** Workout listing *)

Section ListingFacts.

Variable fromisoformat : string -> option datetime.
Variable seconds_between : datetime -> datetime -> Z.
Variable strptime_date : string -> option date.

(** X18: a [--from] or [--to] that does not parse as a date stops
    [list-workouts] with the matching [SystemExit] before the store is
    opened, [--from] being checked first; the store is left as it was. *)
Theorem list_workouts_bad_dates (args : list_workouts_args) (d : db) :
  (forall f, lw_from args = Some f -> f <> EmptyString ->
     strptime_date f = None ->
     cmd_list_workouts fromisoformat seconds_between strptime_date args d
     = (Raise (SystemExit "--from must be YYYY-MM-DD"), d)) /\
  (forall t, lw_to args = Some t -> t <> EmptyString ->
     strptime_date t = None ->
     (forall f, lw_from args = Some f -> f <> EmptyString ->
        strptime_date f <> None) ->
     cmd_list_workouts fromisoformat seconds_between strptime_date args d
     = (Raise (SystemExit "--to must be YYYY-MM-DD"), d)).
Proof.
  unfold cmd_list_workouts, date_range. split.
  - intros f Hf Hne Hp. rewrite Hf. destruct f as [|c f]; [congruence|].
    cbn [truthy option_map]. now rewrite Hp.
  - intros t Ht Hne Hp Hfrom. rewrite Ht. destruct t as [|c t]; [congruence|].
    cbn [truthy option_map]. rewrite Hp.
    destruct (lw_from args) as [[|c' f]|]; cbn [truthy option_map];
      try reflexivity.
    destruct (strptime_date (String c' f)) eqn:E; [reflexivity|].
    exfalso. apply (Hfrom (String c' f)); auto. discriminate.
Qed.


Lemma date_isoformat_truthy dt : truthy (Some (date_isoformat dt)) = true.
Proof. reflexivity. Qed.



End ListingFacts.


Lemma list_workouts_bad_dates_witness :
  cmd_list_workouts (fun _ => None) (fun _ _ => 0) (fun _ => None)
    (mk_list_workouts_args (Some "yesterday"%string) None false) empty_db
  = (Raise (SystemExit "--from must be YYYY-MM-DD"), empty_db).
Proof.
  apply (proj1 (list_workouts_bad_dates (fun _ => None) (fun _ _ => 0)
                  (fun _ => None)
                  (mk_list_workouts_args (Some "yesterday"%string) None false)
                  empty_db) "yesterday"%string).
  - reflexivity.
  - discriminate.
  - reflexivity.
Defined.





Section DurationFacts.

Variable fromisoformat : string -> option datetime.
Variable seconds_between : datetime -> datetime -> Z.

(** X21: the duration label.  It is the placeholder "-" when the start
    does not parse, when the end is missing or empty, or when the end does
    not parse.  Otherwise, with [secs] the seconds from start to end: for
    less than an hour it is the whole minutes followed by "m"; from one
    hour on it is the whole hours, "h", the remaining minutes on two
    digits, "m"; and when the end is before the start the same hours
    format is used with the hours rounded down, so five minutes backwards
    read "-1h55m". *)
Theorem human_duration_label (start_iso : string) (end_iso : option string) :
  (fromisoformat start_iso = None \/ end_iso = None \/
   end_iso = Some EmptyString \/
   (exists e, end_iso = Some e /\ fromisoformat e = None) ->
   human_duration fromisoformat seconds_between start_iso end_iso
   = "-"%string) /\
  (forall e sd ed,
     fromisoformat start_iso = Some sd -> end_iso = Some e ->
     e <> EmptyString -> fromisoformat e = Some ed ->
     let secs := seconds_between sd ed in
     (0 <= secs < 3600 ->
      human_duration fromisoformat seconds_between start_iso end_iso
      = (str_of_Z (secs / 60) ++ "m")%string) /\
     (secs < 0 \/ 3600 <= secs ->
      human_duration fromisoformat seconds_between start_iso end_iso
      = (str_of_Z (secs / 3600) ++ "h"
         ++ zfill2 ((secs / 60) mod 60) "m")%string /\
      0 <= (secs / 60) mod 60 < 60)).
Proof.
  unfold human_duration. split.
  - intros [H|[H|[H|(e & H & He)]]].
    + now rewrite H.
    + rewrite H. now destruct (fromisoformat start_iso).
    + rewrite H. now destruct (fromisoformat start_iso).
    + rewrite H. destruct (fromisoformat start_iso); [|reflexivity].
      destruct e; [reflexivity|]. now rewrite He.
  - intros e sd ed Hs He Hne Hed. cbv zeta. rewrite Hs, He.
    destruct e as [|c e]; [congruence|]. rewrite Hed.
    set (secs := seconds_between sd ed).
    rewrite Z.div_div by lia. change (60 * 60) with 3600. split.
    + intros Hr. rewrite (Z.div_small secs 3600) by lia. cbn [Z.eqb].
      rewrite (Z.mod_small (secs / 60) 60); [reflexivity|].
      split; [apply Z.div_pos; lia|].
      apply Z.div_lt_upper_bound; lia.
    + intros Hr.
      replace (secs / 3600 =? 0) with false.
      * split; [reflexivity|]. apply Z.mod_pos_bound. lia.
      * symmetry. apply Z.eqb_neq. intros E0.
        pose proof (Z.div_mod secs 3600 ltac:(lia)) as Hd.
        pose proof (Z.mod_pos_bound secs 3600 ltac:(lia)) as Hb.
        rewrite E0 in Hd. lia.
Qed.

End DurationFacts.

Lemma human_duration_label_witness :
  let parse := fun s : string =>
    if String.eqb s "a" then Some (mkdatetime (mkdate 2024 3 5) 9 0 0)
    else if String.eqb s "b" then Some (mkdatetime (mkdate 2024 3 5) 8 55 0)
    else None in
  let between := fun a b : datetime =>
    (hour b * 3600 + minute b * 60 + second b)
    - (hour a * 3600 + minute a * 60 + second a) in
  human_duration parse between "a" (Some "b"%string) = "-1h55m"%string /\
  human_duration parse between "b" (Some "a"%string) = "5m"%string /\
  human_duration parse between "a" (Some "zz"%string) = "-"%string.
Proof.
  intros parse between. split; [|split].
  - destruct (proj2 (human_duration_label parse between "a" (Some "b"%string))
                "b"%string (mkdatetime (mkdate 2024 3 5) 9 0 0)
                (mkdatetime (mkdate 2024 3 5) 8 55 0)
                eq_refl eq_refl ltac:(discriminate) eq_refl) as [_ H].
    destruct H as [H _]; [left; vm_compute; reflexivity|]. exact H.
  - destruct (proj2 (human_duration_label parse between "b" (Some "a"%string))
                "a"%string (mkdatetime (mkdate 2024 3 5) 8 55 0)
                (mkdatetime (mkdate 2024 3 5) 9 0 0)
                eq_refl eq_refl ltac:(discriminate) eq_refl) as [H _].
    apply H. vm_compute. split; [discriminate|reflexivity].
  - apply (proj1 (human_duration_label parse between "a" (Some "zz"%string))).
    right. right. right. exists "zz"%string. split; reflexivity.
Defined.

(* ------------------------------------------------------------------ *)
(** ** Further facts on grouping and timestamps *)

Lemma last_by_id_max l r :
  last_by_id l = Some r -> forall w, In w l -> w_id w <= w_id r.
Proof.
  revert r. induction l as [|x l IH]; cbn [last_by_id]; [discriminate|].
  intros r Hr w [Hx|Hw].
  - subst w. destruct (last_by_id l) as [b|]; [|injection Hr as <-; lia].
    destruct (w_id x <? w_id b) eqn:E; injection Hr as <-;
      [apply Z.ltb_lt in E|]; lia.
  - destruct (last_by_id l) as [b|] eqn:Hb.
    + specialize (IH b eq_refl w Hw).
      destruct (w_id x <? w_id b) eqn:E; injection Hr as <-;
        [|apply Z.ltb_ge in E]; lia.
    + apply last_by_id_None in Hb. subst l. destruct Hw.
Qed.

(** X22: when a date has several workouts (possible only in a database
    that these commands did not build), a log without explicit workout id
    succeeds, appends one set row whose [workout_id] is the greatest id
    among the workouts of that date, returns that id, and adds no workout:
    the ids, dates and start times of the workouts are what they were. *)
Theorem log_picks_latest_workout (a : log_args) (d : db) :
  la_workout_id a = None -> log_accepted a d ->
  workouts_on (la_date a) d <> [] ->
  exists wid d' s,
    cmd_log a d = (Ok wid, d') /\
    In wid (map w_id (workouts_on (la_date a) d)) /\
    (forall w, In w (workouts_on (la_date a) d) -> w_id w <= wid) /\
    sets d' = sets d ++ [s] /\
    workout_id s = wid /\
    Some (exercise_id s) = option_map id (exercise_named (la_exercise a) d) /\
    timestamp s = datetime_isoformat (la_ts a) /\
    map (fun w => (w_id w, w_date w, start_time w)) (workouts d')
    = map (fun w => (w_id w, w_date w, start_time w)) (workouts d).
Proof.
  intros Hi Hacc Hne.
  destruct (exercise_named (la_exercise a) d) as [ex|] eqn:Hex;
    [|now destruct Hacc as (_ & _ & H)].
  rewrite (cmd_log_accepted_eq a d ex Hacc Hex), Hi.
  unfold logged_workouts. rewrite Hi.
  destruct (last_by_id (workouts_on (la_date a) d)) as [r|] eqn:Hl;
    [|apply last_by_id_None in Hl; contradiction].
  cbn [fst snd]. eexists _, _, _. split; [reflexivity|].
  cbn [sets workouts].
  split; [apply in_map; now apply last_by_id_In|].
  split; [now apply last_by_id_max|].
  split; [reflexivity|]. split; [reflexivity|]. split; [reflexivity|].
  split; [reflexivity|].
  destruct (match end_time r with Some _ => _ | None => _ end); [|reflexivity].
  unfold touch. rewrite map_map. apply map_ext. intros w.
  destruct (w_id w =? w_id r); reflexivity.
Qed.

Lemma log_picks_latest_workout_witness :
  let d := mkdb [mkExercise 1 "Squat" None None]
             [mkWorkout 3 "2024-03-05" "2024-03-05T07:00:00" None None;
              mkWorkout 8 "2024-03-05" "2024-03-05T18:00:00" None None;
              mkWorkout 5 "2024-03-05" "2024-03-05T12:00:00" None None] [] in
  let a := mk_log_args "Squat" 100 5 "kg" None None (mkdate 2024 3 5)
             (mkdatetime (mkdate 2024 3 5) 19 0 0) None in
  exists wid d' s,
    cmd_log a d = (Ok wid, d') /\
    (forall w, In w (workouts_on (la_date a) d) -> w_id w <= wid) /\
    sets d' = sets d ++ [s] /\ workout_id s = wid.
Proof.
  intros d a.
  destruct (log_picks_latest_workout a d)
    as (wid & d' & s & H1 & _ & H2 & H3 & H4 & _).
  - reflexivity.
  - split; [left; reflexivity|]. split; [simpl; lia|simpl; discriminate].
  - simpl. discriminate.
  - exists wid, d', s. repeat split; assumption.
Defined.

(** X23: comparing two stored timestamps as text, as the code does to
    decide whether to extend a workout, is comparing them in time: for
    valid date-times, the ISO string of one is greater than that of the
    other exactly when it is the later one. *)
Theorem timestamp_order_is_chronological (a b : datetime) :
  datetime_ok a -> datetime_ok b ->
  (str_gtb (datetime_isoformat a) (datetime_isoformat b) = true
   <-> datetime_compare a b = Gt) /\
  (datetime_isoformat a = datetime_isoformat b <-> datetime_compare a b = Eq).
Proof.
  intros Ha Hb. pose proof (datetime_isoformat_compare a b Ha Hb) as H.
  split.
  - unfold str_gtb, String.ltb.
    rewrite String.compare_antisym, H.
    destruct (datetime_compare a b); cbn; split; congruence.
  - split.
    + intros E. rewrite E, str_compare_refl in H. congruence.
    + intros E. rewrite E in H. now apply String.compare_eq_iff.
Qed.

Lemma timestamp_order_is_chronological_witness :
  str_gtb (datetime_isoformat (mkdatetime (mkdate 2024 3 5) 10 0 0))
          (datetime_isoformat (mkdatetime (mkdate 2024 3 5) 9 59 59)) = true.
Proof.
  apply (proj1 (timestamp_order_is_chronological
                  (mkdatetime (mkdate 2024 3 5) 10 0 0)
                  (mkdatetime (mkdate 2024 3 5) 9 59 59)
                  ltac:(unfold datetime_ok, date_ok; simpl; lia)
                  ltac:(unfold datetime_ok, date_ok; simpl; lia))).
  reflexivity.
Defined.
